(** * biostar.recipes.models: projects, data, recipes and jobs

    A shallow embedding of [biostar/recipes/models.py].  The Django models
    become records, the database becomes a store of tables, and the methods
    that touch the database, the file system or the logger become
    computations in a state-and-exception monad over that store.

    Layout: Python primitives; the model records; the store and its monad;
    the methods of the models; then the properties. *)

From stdpp Require Import gmap strings list fin_maps sorting pretty.
From Stdlib Require Import ZArith Lia Ascii String.
From Corelib Require Import SpecFloat.

Set Warnings "-register-all".
#[local] Open Scope string_scope.
#[local] Open Scope Z_scope.

(** ** Python strings

    A [str] is modelled by its UTF-8 bytes; comparing two strings byte by
    byte orders them as Python orders them by code point. *)
Module Py.

(** [bool(s)]: the empty string is the only false one. *)
Definition truthy (s : string) : bool :=
  match s with EmptyString => false | String _ _ => true end.

(** [a or b] on strings. *)
Definition str_or (a b : string) : string := if truthy a then a else b.

(** [a or b] where [a] may be [None]. *)
Definition opt_or {A} (a b : option A) : option A :=
  match a with Some _ => a | None => b end.

(** [x or d] for a nullable value and a default that is not null. *)
Definition opt_default {A} (a : option A) (d : A) : A :=
  match a with Some x => x | None => d end.

(** [s[:n]]. *)
Fixpoint take (n : nat) (s : string) : string :=
  match n, s with
  | S n', String c s' => String c (take n' s')
  | _, _ => EmptyString
  end.

(** [str.isspace] on the ASCII range: tab to carriage return, the four
    separators 0x1c-0x1f and the blank. *)
Definition is_space (c : ascii) : bool :=
  let n := N_of_ascii c in
  ((9 <=? n) && (n <=? 13) || (28 <=? n) && (n <=? 32))%N.

(** [bool(s.strip())]: some character is not white space. *)
Fixpoint has_ink (s : string) : bool :=
  match s with
  | EmptyString => false
  | String c s' => if is_space c then has_ink s' else true
  end.

(** [s.split()]: the maximal runs of characters that are not white space.
    [word] holds the run being read, last character first. *)
Fixpoint split_from (word : string) (s : string) : list string :=
  let flush := if truthy word then [String.rev word] else [] in
  match s with
  | EmptyString => flush
  | String c s' =>
      if is_space c then flush ++ split_from EmptyString s'
      else split_from (String c word) s'
  end.
Definition split (s : string) : list string := split_from EmptyString s.

(** [sep.join(l)]. *)
Fixpoint join (sep : string) (l : list string) : string :=
  match l with
  | [] => EmptyString
  | [x] => x
  | x :: l' => x +:+ sep +:+ join sep l'
  end.

Definition CR : ascii := ascii_of_nat 13.
Definition LF : ascii := ascii_of_nat 10.

(** [s.replace('\r\n', '\n')]. *)
Fixpoint replace_crlf (s : string) : string :=
  match s with
  | EmptyString => EmptyString
  | String c s' =>
      match s' with
      | String d s'' =>
          if bool_decide (c = CR) && bool_decide (d = LF)
          then String LF (replace_crlf s'')
          else String c (replace_crlf s')
      | EmptyString => String c EmptyString
      end
  end.

(** [s.replace(" ", '')]. *)
Fixpoint remove_blanks (s : string) : string :=
  match s with
  | EmptyString => EmptyString
  | String c s' =>
      if bool_decide (c = " "%char) then remove_blanks s'
      else String c (remove_blanks s')
  end.

(** [s.startswith(p)]. *)
Fixpoint startswith (p s : string) : bool :=
  match p, s with
  | EmptyString, _ => true
  | String a p', String b s' => bool_decide (a = b) && startswith p' s'
  | String _ _, EmptyString => false
  end.

(** [str(n)] and [f"{n}"] for an [int]. *)
Definition str_of_int (n : Z) : string := pretty n.

(** [f"{x}"] for an [int] that may be [None]. *)
Definition str_of_opt_int (n : option Z) : string :=
  match n with Some k => str_of_int k | None => "None" end.

End Py.

(** ** Python floats

    [Job.elapsed] divides two small positive integers and then either
    truncates the quotient or rounds it to one decimal.  A float is kept as
    the exact dyadic rational it denotes. *)
Module Float.

(** The float [mant / 2^scale] ([mant * 2^(-scale)] when [scale < 0]). *)
Record t := mk { mant : Z; scale : Z }.

(** The integer nearest to [n / d], ties to the even one ([0 < d]). *)
Definition round_half_even (n d : Z) : Z :=
  let q := n / d in
  match 2 * (n mod d) ?= d with
  | Lt => q
  | Gt => q + 1
  | Eq => if Z.even q then q else q + 1
  end.

(** [a / b] on [int]s with [0 <= a] and [0 < b]: the binary64 nearest to
    the quotient (IEEE 754 round-half-to-even, 53 significant bits).  The
    scale is the one that puts the quotient in [[2^52, 2^53)]; overflow and
    subnormals are out of reach of the operands used here. *)
Definition div_int (a b : Z) : t :=
  if a =? 0 then mk 0 0
  else
    let k0 := 52 - (Z.log2 a - Z.log2 b) in
    let lo := if 0 <=? k0 then a * 2 ^ k0 <? b * 2 ^ 52
              else a <? b * 2 ^ (52 - k0) in
    let k := if lo then k0 + 1 else k0 in
    if 0 <=? k then mk (round_half_even (a * 2 ^ k) b) k
    else mk (round_half_even a (b * 2 ^ (- k))) k.

(** [int(x)] for [0 <= x]. *)
Definition trunc (x : t) : Z :=
  if 0 <=? scale x then mant x / 2 ^ scale x else mant x * 2 ^ (- scale x).

(** [round(x, 1)], as a number of tenths: Python rounds the exact value
    of the float to the nearest tenth, ties to even. *)
Definition round1 (x : t) : Z :=
  if 0 <=? scale x then round_half_even (10 * mant x) (2 ^ scale x)
  else 10 * mant x * 2 ^ (- scale x).

(** [f"{x}"] for the float nearest to [tenths / 10], [0 <= tenths]: its
    shortest representation has exactly one decimal. *)
Definition repr1 (tenths : Z) : string :=
  Py.str_of_int (tenths / 10) +:+ "." +:+ Py.str_of_int (tenths mod 10).

(** The same quotient through the reference implementation of binary64
    in the prelude, for comparison. *)
Definition reference_div (a b : Z) : spec_float :=
  SFdiv 53 1024 (binary_normalize 53 1024 a 0 false)
                (binary_normalize 53 1024 b 0 false).

Definition agrees_with_reference (a b : Z) : bool :=
  match reference_div a b, div_int a b with
  | S754_finite false m e, mk m' k => (Z.pos m =? m') && (e =? - k)
  | S754_zero false, mk 0 _ => true
  | _, _ => false
  end.

End Float.

(** ** [datetime] and [timedelta]

    A [datetime] is a number of microseconds since the epoch.  A
    [timedelta] is kept normalised as Python keeps it: [0 <= seconds <
    86400] and [0 <= microseconds < 10^6], the sign carried by [days]. *)
Module Timedelta.
Record t := mk { days : Z; seconds : Z; microseconds : Z }.

Definition of_microseconds (us : Z) : t :=
  {| days := us / 86400000000;
     seconds := (us mod 86400000000) / 1000000;
     microseconds := us mod 1000000 |}.
End Timedelta.

Definition datetime := Z.

(** [a - b] on two [datetime]s. *)
Definition datetime_sub (a b : datetime) : Timedelta.t :=
  Timedelta.of_microseconds (a - b).

(** [d + timedelta(seconds=n)]. *)
Definition datetime_add_seconds (d : datetime) (n : Z) : datetime :=
  d + n * 1000000.

(** ** Parsed parameter payloads

    What [toml.loads] builds: scalars, arrays and tables.  A table is a
    Python [dict]: the keys are kept in insertion order. *)
Module Value.

Inductive t :=
| NoneV
| Bool (b : bool)
| Int (n : Z)
| Flt (x : spec_float)
| Str (s : string)
| Temporal (iso : string)          (* date, time or datetime *)
| List (l : list t)
| Dict (d : list (string * t)).

Definition dict := list (string * t).

(** [bool(v)]. *)
Definition truthy (v : t) : bool :=
  match v with
  | NoneV => false
  | Bool b => b
  | Int n => negb (n =? 0)
  | Flt (S754_zero _) => false
  | Flt _ => true
  | Str s => Py.truthy s
  | Temporal _ => true
  | List l => match l with [] => false | _ :: _ => true end
  | Dict d => match d with [] => false | _ :: _ => true end
  end.

(** [d.get(k)]; a missing key gives [None]. *)
Fixpoint get (k : string) (d : dict) : option t :=
  match d with
  | [] => None
  | (k', v) :: d' => if bool_decide (k' = k) then Some v else get k d'
  end.

(** [d[k] = v]: a known key keeps its place, a new one goes last. *)
Fixpoint set (k : string) (v : t) (d : dict) : dict :=
  match d with
  | [] => [(k, v)]
  | (k', v') :: d' =>
      if bool_decide (k' = k) then (k, v) :: d' else (k', v') :: set k v d'
  end.

(** [x or {}] where [x] is the result of [d.get(k)]. *)
Definition or_empty (x : option t) : t :=
  match x with
  | Some v => if truthy v then v else Dict []
  | None => Dict []
  end.

End Value.

(** ** Exceptions *)
Inductive exn :=
| AssertionError (msg : string)
| DoesNotExist (model : string)
| TypeError (msg : string)
| ValueError (msg : string)
| IntegrityError (msg : string)
| OSError (msg : string).

Inductive outcome (A : Type) :=
| Ok (a : A)
| Raise (e : exn).
Arguments Ok {A} a.
Arguments Raise {A} e.

(** ** What the module imports

    The settings, the constants of [const.py] and the library functions
    that the models call but do not define. *)
Record Env := {
  MEDIA_ROOT : string;                         (* settings.MEDIA_ROOT *)
  TOC_ROOT : string;                           (* settings.TOC_ROOT *)
  BASE_URL : string;                           (* settings.BASE_URL *)
  MAX_NAME_LEN : nat;                          (* const.MAX_NAME_LEN *)
  MAX_LOG_LEN : nat;                           (* const.MAX_LOG_LEN *)
  markdown : string → bool → string;           (* mistune.markdown(text, escape) *)
  abspath : string → string;                   (* os.path.abspath *)
  uuid : nat → nat → string;                   (* util.get_uuid(limit), n-th draw *)
  loads : string → string + Value.dict         (* toml.loads: the message of
                                                  the exception, or the table *)
}.

(** ** The models *)

(** [biostar.accounts.models.User], with [profile.trusted]. *)
Module User.
Record t := mk { pk : Z; trusted : bool }.
End User.

Module Project.
Definition PUBLIC : Z := 1.
Definition SHAREABLE : Z := 2.
Definition PRIVATE : Z := 3.

Record t := mk {
  pk : option Z;
  lastedit_user : option Z;
  lastedit_date : option datetime;
  privacy : Z;
  name : string;
  deleted : bool;
  owner : option Z;
  text : string;
  html : string;
  date : option datetime;
  uid : string;
  label : option string;
  sharable_token : option string;
  data_count : Z;
  recipes_count : Z;
  jobs_count : Z
}.

Definition is_public (self : t) : bool := bool_decide (privacy self = PUBLIC).
Definition is_private (self : t) : bool := bool_decide (privacy self = PRIVATE).
Definition is_shareable (self : t) : bool :=
  bool_decide (privacy self = SHAREABLE).

Definition get_name (self : t) : string :=
  if deleted self then "Deleted: " +:+ name self else name self.
End Project.

Module Access.
Definition NO_ACCESS : Z := 1.
Definition READ_ACCESS : Z := 2.
Definition WRITE_ACCESS : Z := 3.
Definition SHARE_ACCESS : Z := 4.

Record t := mk { user : option Z; project : option Z; access : Z }.
End Access.

Module Data.
Definition PENDING : Z := 1.
Definition READY : Z := 2.
Definition ERROR : Z := 3.
Definition LINK : Z := 1.
Definition UPLOAD : Z := 2.
Definition TEXTAREA : Z := 3.

Record t := mk {
  pk : option Z;
  state : Z;
  method : Z;
  name : string;
  deleted : bool;
  lastedit_user : option Z;
  lastedit_date : option datetime;
  owner : option Z;
  text : string;
  html : string;
  date : option datetime;
  type : string;
  project : Z;
  size : Z;
  file : string;
  file_count : Z;
  uid : string
}.

Definition get_name (self : t) : string :=
  if deleted self then "Deleted: " +:+ name self else name self.
End Data.

Module Analysis.
Definition AUTHORIZED : Z := 1.
Definition NOT_AUTHORIZED : Z := 2.

Record t := mk {
  pk : option Z;
  security : Z;
  deleted : bool;
  uid : string;
  name : string;
  text : string;
  html : string;
  owner : option Z;
  root : option Z;
  lastedit_user : option Z;
  lastedit_date : option datetime;
  project : Z;
  json_text : string;
  template : string;
  last_valid : string;
  date : option datetime;
  image : string
}.

Definition is_cloned (self : t) : bool :=
  match root self with Some _ => true | None => false end.

Definition is_root (self : t) : bool :=
  match root self with Some _ => false | None => true end.

Definition runnable (self : t) : bool :=
  bool_decide (security self = AUTHORIZED).

Definition get_name (self : t) : string :=
  if deleted self then "Deleted: " +:+ name self else name self.
End Analysis.

Module Job.
Definition AUTHORIZED : Z := 1.
Definition UNDER_REVIEW : Z := 2.

Definition QUEUED : Z := 1.
Definition RUNNING : Z := 2.
Definition COMPLETED : Z := 3.
Definition ERROR : Z := 4.
Definition SPOOLED : Z := 5.
Definition PAUSED : Z := 6.

Record t := mk {
  pk : option Z;
  state : Z;
  deleted : bool;
  name : string;
  lastedit_user : option Z;
  lastedit_date : option datetime;
  owner : option Z;
  text : string;
  html : string;
  date : option datetime;
  start_date : option datetime;
  end_date : option datetime;
  analysis : Z;
  project : Z;
  json_text : string;
  uid : string;
  template : string;
  security : Z;
  script : string;
  stdout_log : string;
  stderr_log : string;
  valid : bool;
  path : string
}.

Definition is_running (self : t) : bool := bool_decide (state self = RUNNING).
Definition is_success (self : t) : bool := bool_decide (state self = COMPLETED).
Definition is_error (self : t) : bool := bool_decide (state self = ERROR).
Definition is_started (self : t) : bool :=
  bool_decide (state self ∈ [QUEUED; SPOOLED; RUNNING]).
Definition is_finished (self : t) : bool :=
  bool_decide (state self ∈ [ERROR; COMPLETED]).
Definition done (self : t) : bool := bool_decide (state self = COMPLETED).

Definition get_name (self : t) : string :=
  if deleted self then "Deleted: " +:+ name self else name self.

(** [Job.elapsed]. *)
Definition elapsed (self : t) : string :=
  match start_date self, end_date self with
  | Some start, Some stop =>
      let seconds := Timedelta.seconds (datetime_sub stop start) in
      if seconds <? 60 then Py.str_of_int seconds +:+ " seconds"
      else if seconds <? 3600 then
        let minutes := Float.trunc (Float.div_int seconds 60) in
        Py.str_of_int minutes +:+ " minutes"
      else
        let hours := Float.round1 (Float.div_int seconds 3600) in
        Float.repr1 hours +:+ " hours"
  | _, _ => ""
  end.
End Job.

(** ** The store

    The tables of the database keyed by primary key, the directories and
    the regular files of the file system, the lines written by the
    logger, the clock and the number of identifiers drawn so far. *)
Record World := mkWorld {
  users : gmap Z User.t;
  projects : gmap Z Project.t;
  accesses : list Access.t;
  datas : gmap Z Data.t;
  analyses : gmap Z Analysis.t;
  jobs : gmap Z Job.t;
  dirs : gset string;
  files : gmap string string;
  log : list string;
  clock : datetime;
  draws : nat
}.

Definition set_projects (f : gmap Z Project.t → gmap Z Project.t) (w : World) : World :=
  mkWorld (users w) (f (projects w)) (accesses w) (datas w) (analyses w)
          (jobs w) (dirs w) (files w) (log w) (clock w) (draws w).

Definition set_accesses (f : list Access.t → list Access.t) (w : World) : World :=
  mkWorld (users w) (projects w) (f (accesses w)) (datas w) (analyses w)
          (jobs w) (dirs w) (files w) (log w) (clock w) (draws w).

Definition set_datas (f : gmap Z Data.t → gmap Z Data.t) (w : World) : World :=
  mkWorld (users w) (projects w) (accesses w) (f (datas w)) (analyses w)
          (jobs w) (dirs w) (files w) (log w) (clock w) (draws w).

Definition set_analyses (f : gmap Z Analysis.t → gmap Z Analysis.t) (w : World) : World :=
  mkWorld (users w) (projects w) (accesses w) (datas w) (f (analyses w))
          (jobs w) (dirs w) (files w) (log w) (clock w) (draws w).

Definition set_jobs (f : gmap Z Job.t → gmap Z Job.t) (w : World) : World :=
  mkWorld (users w) (projects w) (accesses w) (datas w) (analyses w)
          (f (jobs w)) (dirs w) (files w) (log w) (clock w) (draws w).

Definition set_dirs (f : gset string → gset string) (w : World) : World :=
  mkWorld (users w) (projects w) (accesses w) (datas w) (analyses w)
          (jobs w) (f (dirs w)) (files w) (log w) (clock w) (draws w).

Definition set_files (f : gmap string string → gmap string string) (w : World) : World :=
  mkWorld (users w) (projects w) (accesses w) (datas w) (analyses w)
          (jobs w) (dirs w) (f (files w)) (log w) (clock w) (draws w).

Definition set_log (f : list string → list string) (w : World) : World :=
  mkWorld (users w) (projects w) (accesses w) (datas w) (analyses w)
          (jobs w) (dirs w) (files w) (f (log w)) (clock w) (draws w).

Definition set_draws (f : nat → nat) (w : World) : World :=
  mkWorld (users w) (projects w) (accesses w) (datas w) (analyses w)
          (jobs w) (dirs w) (files w) (log w) (clock w) (f (draws w)).

(** ** Computations: a state over the store, with exceptions.  An exception
    keeps what was written before it was raised. *)
Definition M (A : Type) : Type := World → outcome A * World.

#[global] Instance M_ret : MRet M := λ A a w, (Ok a, w).

#[global] Instance M_bind : MBind M := λ A B f m w,
  match m w with
  | (Ok a, w') => f a w'
  | (Raise e, w') => (Raise e, w')
  end.

Definition raise {A} (e : exn) : M A := λ w, (Raise e, w).
Definition get_world : M World := λ w, (Ok w, w).
Definition modify (f : World → World) : M unit := λ w, (Ok tt, f w).

(** [assert cond, msg]. *)
Definition assert (cond : bool) (msg : string) : M unit :=
  if cond then mret tt else raise (AssertionError msg).

(** A row read through a foreign key that cannot be null. *)
Definition fetch {A} (model : string) (table : World → gmap Z A) (k : Z) : M A :=
  w ← get_world;
  match table w !! k with
  | Some row => mret row
  | None => raise (DoesNotExist model)
  end.

(** A row read through a foreign key that may be null. *)
Definition fetch_opt {A} (model : string) (table : World → gmap Z A)
    (k : option Z) : M (option A) :=
  match k with
  | Some k' => row ← fetch model table k'; mret (Some row)
  | None => mret None
  end.

(** [logger.error(msg)]. *)
Definition logger_error (msg : string) : M unit :=
  modify (set_log (λ l, (l ++ [msg])%list)).

(** [timezone.now()]. *)
Definition timezone_now : M datetime := w ← get_world; mret (clock w).

(** The primary key that an insert assigns. *)
Definition next_pk {A} (table : gmap Z A) : Z :=
  1 + map_fold (λ k _ acc, Z.max k acc) 0 table.

(** The number of rows of a reverse relation that pass a filter. *)
Definition count_rows {A} (keep : A → bool) (table : gmap Z A) : Z :=
  Z.of_nat (size (filter (λ kr, keep kr.2 = true) table)).

(** ** The file system *)

(** [posixpath.join]. *)
Definition endswith_slash (s : string) : bool :=
  match String.rev s with
  | String c _ => bool_decide (c = "/"%char)
  | EmptyString => false
  end.

Definition os_path_join2 (path b : string) : string :=
  if Py.startswith "/" b then b
  else if negb (Py.truthy path) || endswith_slash path then path +:+ b
  else path +:+ "/" +:+ b.

Definition os_path_join (a : string) (p : list string) : string :=
  foldl os_path_join2 a p.

(** The proper ancestors of an absolute normalised path, the root apart:
    ["/a"] and ["/a/b"] for ["/a/b/c"].  [seen] is what was read, last
    character first. *)
Fixpoint ancestors_from (seen : string) (s : string) : list string :=
  match s with
  | EmptyString => []
  | String c s' =>
      (if bool_decide (c = "/"%char) && Py.truthy seen
       then [String.rev seen] else [])
      ++ ancestors_from (String c seen) s'
  end.
Definition ancestors (p : string) : list string := ancestors_from EmptyString p.

(** [os.path.dirname] of an absolute normalised path. *)
Definition dirname (p : string) : string := List.last (ancestors p) "/".

Definition isdir (p : string) : M bool :=
  w ← get_world; mret (bool_decide (p ∈ dirs w)).

Definition isfile (p : string) : M bool :=
  w ← get_world; mret (bool_decide (is_Some (files w !! p))).

(** [os.makedirs(p)]: the directory and the ancestors it lacks.  A regular
    file in the way, or a directory at [p] already, is an error. *)
Definition makedirs (p : string) : M unit :=
  w ← get_world;
  if bool_decide (Exists (λ q, is_Some (files w !! q)) (ancestors p))
  then raise (OSError "NotADirectoryError")
  else if bool_decide (is_Some (files w !! p) ∨ p ∈ dirs w)
  then raise (OSError "FileExistsError")
  else modify (set_dirs (λ d, d ∪ list_to_set (p :: ancestors p))).

(** [with open(p, 'w') as fp: fp.write(content)]: the file is created or
    truncated. *)
Definition write_text (p content : string) : M unit :=
  w ← get_world;
  if bool_decide (p ∈ dirs w) then raise (OSError "IsADirectoryError")
  else if bool_decide (dirname p = "/" ∨ dirname p ∈ dirs w)
  then modify (set_files (λ f, <[p := content]> f))
  else raise (OSError "FileNotFoundError").

(** [os.stat(p).st_size]. *)
Definition st_size (content : string) : Z := Z.of_nat (String.length content).

(** ** The methods of the models

    What the methods take from Django is written out where they use it:
    - an attribute that is a foreign key reads the row of its target when it
      is first accessed ([fetch]) and keeps what it read: [Analysis.save]
      counts on the project as it read it before it updated the last edit;
    - [filter(...).update(...)] rewrites the rows that pass the filter and
      calls no [save];
    - [Model.save] writes the row under its primary key, or inserts it under
      a new one, after the columns declared [unique=True] and the owners
      declared [null=False] were checked; a column with [auto_now_add] is
      set on insert;
    - a count over a reverse relation of an instance without primary key is
      zero.
    One process runs at a time; transactions and the other column
    constraints are left out. *)
Section Models.
Context (E : Env).

(** The [join] of the module: [os.path.abspath] of [os.path.join]. *)
Definition join (a : string) (p : list string) : string :=
  abspath E (os_path_join a p).

(** [util.get_uuid(limit)]. *)
Definition get_uuid (limit : nat) : M string :=
  w ← get_world;
  _ ← modify (set_draws S);
  mret (uuid E (draws w) limit).

(** [s or util.get_uuid(limit)]. *)
Definition or_uuid (s : string) (limit : nat) : M string :=
  if Py.truthy s then mret s else get_uuid limit.

Definition make_html (text : string) (user : option User.t) : string :=
  match user with
  | Some u =>
      if User.trusted u then markdown E text false else markdown E text true
  | None => markdown E text true
  end.

(** A column declared [unique=True]: no other row holds the value. *)
Definition unique {A} (table : gmap Z A) (pk : option Z) (column : A → option string)
    (v : option string) : bool :=
  match v with
  | None => true
  | Some _ =>
      bool_decide (map_Forall (λ k row, Some k = pk ∨ column row ≠ v) table)
  end.

Definition check (cond : bool) (msg : string) : M unit :=
  if cond then mret tt else raise (IntegrityError msg).

(** [Model.save]: the row is written under its primary key; a row that has
    none is inserted under the next one. *)
Definition Model_save {A} (table : World → gmap Z A)
    (update : (gmap Z A → gmap Z A) → World → World)
    (pk : option Z) (row : bool → Z → A) : M A :=
  w ← get_world;
  let k := match pk with Some k => k | None => next_pk (table w) end in
  let adding := bool_decide (table w !! k = None) in
  _ ← modify (update (λ t, <[k := row adding k]> t));
  mret (row adding k).

(** *** Project *)

Definition Project_uid_is_set (self : Project.t) : M unit :=
  assert (Py.has_ink (Project.uid self)) "Sanity check. UID should always be set.".

Definition Project_get_project_dir (self : Project.t) : M string :=
  _ ← Project_uid_is_set self;
  mret (join (MEDIA_ROOT E) ["projects"; Project.uid self]).

Definition Project_get_data_dir (self : Project.t) : M string :=
  Project_get_project_dir self.

(** The counts that [Project.set_counts] assigns: the rows of each reverse
    relation with [deleted=False]. *)
Definition live_data (pk : option Z) (d : Data.t) : bool :=
  bool_decide (Some (Data.project d) = pk) && negb (Data.deleted d).
Definition live_recipe (pk : option Z) (a : Analysis.t) : bool :=
  bool_decide (Some (Analysis.project a) = pk) && negb (Analysis.deleted a).
Definition live_job (pk : option Z) (j : Job.t) : bool :=
  bool_decide (Some (Job.project j) = pk) && negb (Job.deleted j).

Definition with_counts (self : Project.t) (data_count recipes_count jobs_count : Z)
    : Project.t :=
  {| Project.pk := Project.pk self;
     Project.lastedit_user := Project.lastedit_user self;
     Project.lastedit_date := Project.lastedit_date self;
     Project.privacy := Project.privacy self;
     Project.name := Project.name self;
     Project.deleted := Project.deleted self;
     Project.owner := Project.owner self;
     Project.text := Project.text self;
     Project.html := Project.html self;
     Project.date := Project.date self;
     Project.uid := Project.uid self;
     Project.label := Project.label self;
     Project.sharable_token := Project.sharable_token self;
     Project.data_count := data_count;
     Project.recipes_count := recipes_count;
     Project.jobs_count := jobs_count |}.

(** [Project.set_counts(save=False)]. *)
Definition Project_count (self : Project.t) : M Project.t :=
  w ← get_world;
  let data_count := count_rows (live_data (Project.pk self)) (datas w) in
  let recipes_count := count_rows (live_recipe (Project.pk self)) (analyses w) in
  let job_count := count_rows (live_job (Project.pk self)) (jobs w) in
  mret (with_counts self data_count recipes_count job_count).

(** The receiver of [post_save] for [Project]: the owner gets write access
    if no row grants it yet. *)
Definition update_access (instance : Project.t) : M unit :=
  w ← get_world;
  let granted (a : Access.t) :=
    bool_decide (Access.user a = Project.owner instance
                 ∧ Access.project a = Project.pk instance
                 ∧ Access.access a = Access.WRITE_ACCESS) in
  if existsb granted (accesses w) then mret tt
  else modify (set_accesses (λ l,
         (l ++ [Access.mk (Project.owner instance) (Project.pk instance)
                          Access.WRITE_ACCESS])%list)).

Definition Project_save (self : Project.t) : M Project.t :=
  now ← timezone_now;
  let date := Py.opt_or (Project.date self) (Some now) in
  sharable_token ← or_uuid (Py.opt_default (Project.sharable_token self) "") 30;
  user ← fetch_opt "User" users (Project.lastedit_user self);
  let html := make_html (Project.text self) user in
  let name := Py.take (MAX_NAME_LEN E) (Project.name self) in
  uid ← or_uuid (Project.uid self) 8;
  label ← or_uuid (Py.str_or (Py.opt_default (Project.label self) "") uid) 8;
  lastedit_user ←
    match Project.lastedit_user self, Project.owner self with
    | Some u, _ => mret (Some u)
    | None, Some o => _ ← fetch "User" users o; mret (Some o)
    | None, None => raise (DoesNotExist "User")
    end;
  let lastedit_date := Py.opt_or (Project.lastedit_date self) (Some now) in
  let self :=
    {| Project.pk := Project.pk self;
       Project.lastedit_user := lastedit_user;
       Project.lastedit_date := lastedit_date;
       Project.privacy := Project.privacy self;
       Project.name := name;
       Project.deleted := Project.deleted self;
       Project.owner := Project.owner self;
       Project.text := Project.text self;
       Project.html := html;
       Project.date := date;
       Project.uid := uid;
       Project.label := Some label;
       Project.sharable_token := Some sharable_token;
       Project.data_count := Project.data_count self;
       Project.recipes_count := Project.recipes_count self;
       Project.jobs_count := Project.jobs_count self |} in
  self ← Project_count self;
  project_dir ← Project_get_project_dir self;
  present ← isdir project_dir;
  _ ← (if negb present then makedirs project_dir else mret tt);
  w ← get_world;
  _ ← check (bool_decide (is_Some (Project.owner self))) "owner";
  _ ← check (unique (projects w) (Project.pk self) (λ p, Some (Project.uid p))
               (Some (Project.uid self))) "uid";
  _ ← check (unique (projects w) (Project.pk self) Project.label
               (Project.label self)) "label";
  _ ← check (unique (projects w) (Project.pk self) Project.sharable_token
               (Project.sharable_token self)) "sharable_token";
  saved ← Model_save projects set_projects (Project.pk self) (λ adding k,
    {| Project.pk := Some k;
       Project.lastedit_user := Project.lastedit_user self;
       Project.lastedit_date := Project.lastedit_date self;
       Project.privacy := Project.privacy self;
       Project.name := Project.name self;
       Project.deleted := Project.deleted self;
       Project.owner := Project.owner self;
       Project.text := Project.text self;
       Project.html := Project.html self;
       Project.date := if adding then Some now else Project.date self;
       Project.uid := Project.uid self;
       Project.label := Project.label self;
       Project.sharable_token := Project.sharable_token self;
       Project.data_count := Project.data_count self;
       Project.recipes_count := Project.recipes_count self;
       Project.jobs_count := Project.jobs_count self |});
  _ ← update_access saved;
  mret saved.

(** [Project.set_counts(save)]. *)
Definition Project_set_counts (self : Project.t) (save : bool) : M Project.t :=
  self ← Project_count self;
  if save then Project_save self else mret self.

(** [self.project.owner]: the owner of a project cannot be null. *)
Definition Project_owner (proj : Project.t) : M (option Z) :=
  match Project.owner proj with
  | Some o => _ ← fetch "User" users o; mret (Some o)
  | None => raise (DoesNotExist "User")
  end.

(** [Project.objects.filter(...).update(lastedit_date=..., lastedit_user=...)]
    on one row. *)
Definition with_lastedit (lastedit_date : option datetime) (lastedit_user : option Z)
    (p : Project.t) : Project.t :=
  {| Project.pk := Project.pk p;
     Project.lastedit_user := lastedit_user;
     Project.lastedit_date := lastedit_date;
     Project.privacy := Project.privacy p;
     Project.name := Project.name p;
     Project.deleted := Project.deleted p;
     Project.owner := Project.owner p;
     Project.text := Project.text p;
     Project.html := Project.html p;
     Project.date := Project.date p;
     Project.uid := Project.uid p;
     Project.label := Project.label p;
     Project.sharable_token := Project.sharable_token p;
     Project.data_count := Project.data_count p;
     Project.recipes_count := Project.recipes_count p;
     Project.jobs_count := Project.jobs_count p |}.

(** *** Data *)

Definition Data_get_project_dir (self : Data.t) : M string :=
  proj ← fetch "Project" projects (Data.project self);
  Project_get_project_dir proj.

Definition Data_get_data_dir (self : Data.t) : M string :=
  _ ← assert (Py.truthy (Data.uid self)) "Sanity check. UID should always be set.";
  project_dir ← Data_get_project_dir self;
  mret (join project_dir [Data.uid self]).

Definition Data_get_path (self : Data.t) : string :=
  join (TOC_ROOT E) ["toc-" +:+ Data.uid self +:+ ".txt"].

Definition Data_save (self : Data.t) : M Data.t :=
  now ← timezone_now;
  let name := Py.take (MAX_NAME_LEN E) (Data.name self) in
  uid ← or_uuid (Data.uid self) 8;
  let date := Py.opt_or (Data.date self) (Some now) in
  user ← fetch_opt "User" users (Data.lastedit_user self);
  let html := make_html (Data.text self) user in
  owner ←
    match Data.owner self with
    | Some o => _ ← fetch "User" users o; mret (Some o)
    | None => proj ← fetch "Project" projects (Data.project self);
              Project_owner proj
    end;
  let type := Py.remove_blanks (Data.type self) in
  lastedit_user ←
    match Data.lastedit_user self, owner with
    | Some u, _ => mret (Some u)
    | None, Some o => mret (Some o)
    | None, None => proj ← fetch "Project" projects (Data.project self);
                    Project_owner proj
    end;
  let lastedit_date := Py.opt_or (Data.lastedit_date self) (Some now) in
  let self :=
    {| Data.pk := Data.pk self;
       Data.state := Data.state self;
       Data.method := Data.method self;
       Data.name := name;
       Data.deleted := Data.deleted self;
       Data.lastedit_user := lastedit_user;
       Data.lastedit_date := lastedit_date;
       Data.owner := owner;
       Data.text := Data.text self;
       Data.html := html;
       Data.date := date;
       Data.type := type;
       Data.project := Data.project self;
       Data.size := Data.size self;
       Data.file := Data.file self;
       Data.file_count := Data.file_count self;
       Data.uid := uid |} in
  (* Build the data directory. *)
  data_dir ← Data_get_data_dir self;
  present ← isdir data_dir;
  _ ← (if negb present then makedirs data_dir else mret tt);
  (* Set the table of contents for the file. *)
  let file := Data_get_path self in
  (* Make this file if it does not exist. *)
  there ← isfile file;
  _ ← (if negb there then write_text file "" else mret tt);
  w ← get_world;
  _ ← check (unique (datas w) (Data.pk self) (λ d, Some (Data.uid d))
               (Some (Data.uid self))) "uid";
  saved ← Model_save datas set_datas (Data.pk self) (λ adding k,
    {| Data.pk := Some k;
       Data.state := Data.state self;
       Data.method := Data.method self;
       Data.name := Data.name self;
       Data.deleted := Data.deleted self;
       Data.lastedit_user := Data.lastedit_user self;
       Data.lastedit_date := Data.lastedit_date self;
       Data.owner := Data.owner self;
       Data.text := Data.text self;
       Data.html := Data.html self;
       Data.date := if adding then Some now else Data.date self;
       Data.type := Data.type self;
       Data.project := Data.project self;
       Data.size := Data.size self;
       Data.file := file;
       Data.file_count := Data.file_count self;
       Data.uid := Data.uid self |});
  (* Set the counts. *)
  proj ← fetch "Project" projects (Data.project saved);
  _ ← Project_set_counts proj true;
  mret saved.

(** Modelled from the spec: [util.findfiles] is not among the sources.
    Section 4.3: the builder "walks all regular files under data_dir
    recursively" and produces their absolute paths.  The paths are added to
    [collect] in the order the file system lists them. *)
Definition findfiles (location : string) (collect : list string) : M (list string) :=
  w ← get_world;
  mret (collect ++
        filter (λ p, Py.startswith (location +:+ "/") p = true)
               (elements (dom (files w))))%list.

(** Files that other processes delete while a method runs. *)
Definition vanish (gone : gset string) : M unit :=
  modify (set_files (filter (λ kv, kv.1 ∉ gone))).

Definition newline : string := String Py.LF EmptyString.

(** The assignments that end [Data.make_toc]. *)
Definition Data_with_toc (self : Data.t) (size : Z) (file : string)
    (file_count : Z) : Data.t :=
  {| Data.pk := Data.pk self;
     Data.state := Data.state self;
     Data.method := Data.method self;
     Data.name := Data.name self;
     Data.deleted := Data.deleted self;
     Data.lastedit_user := Data.lastedit_user self;
     Data.lastedit_date := Data.lastedit_date self;
     Data.owner := Data.owner self;
     Data.text := Data.text self;
     Data.html := Data.html self;
     Data.date := Data.date self;
     Data.type := Data.type self;
     Data.project := Data.project self;
     Data.size := size;
     Data.file := file;
     Data.file_count := file_count;
     Data.uid := Data.uid self |}.

(** [Data.make_toc].  [gone] holds the files that disappear between the
    walk and the computation of the size. *)
Definition Data_make_toc (gone : gset string) (self : Data.t) : M (Data.t * string) :=
  let tocname := Data_get_path self in
  data_dir ← Data_get_data_dir self;
  collect ← findfiles data_dir [];
  (* Create a sorted file path collection. *)
  let collect := merge_sort String.le collect in
  (* Write the table of contents. *)
  _ ← write_text tocname (Py.join newline collect);
  _ ← vanish gone;
  (* Find the cumulative size of the files. *)
  w ← get_world;
  let size :=
    foldl (λ size elem,
             match files w !! elem with
             | Some content => size + st_size content
             | None => size
             end) 0 collect in
  mret (Data_with_toc self size tocname (Z.of_nat (List.length collect)), tocname).

(** The [try] statement that opens both [json_data] properties: the text
    is parsed, and an exception of the parser is logged and answered by an
    empty table. *)
Definition try_loads (message : string → string → string) (text : string)
    : M Value.dict :=
  match loads E text with
  | inr table => mret table
  | inl exc => _ ← logger_error (message exc text); mret []
  end.

(** *** Analysis *)

(** The keys that [Analysis.json_data] writes into the settings, after the
    root has been read. *)
Definition derived_settings (self : Analysis.t) (proj : Project.t)
    (root : option Analysis.t) (current_settings : Value.dict) : Value.dict :=
  let base := Py.join "_" (Py.split (Analysis.name self)) +:+ "_"
              +:+ Project.uid proj +:+ "_"
              +:+ Py.str_of_opt_int (Analysis.pk self) in
  let template_name := base +:+ ".sh" in
  let image_name := base +:+ ".png" in
  let s := Value.set "name" (Value.Str (Analysis.name self)) current_settings in
  let s := Value.set "template" (Value.Str template_name) s in
  let s := Value.set "image" (Value.Str image_name) s in
  let s := Value.set "id" (match Analysis.pk self with
                           | Some k => Value.Int k
                           | None => Value.NoneV
                           end) s in
  let s := Value.set "recipe_uid" (Value.Str (Analysis.uid self)) s in
  let s := Value.set "uid" (Value.Str (Analysis.uid self)) s in
  let s := Value.set "help" (Value.Str (Analysis.text self)) s in
  let s := Value.set "url" (Value.Str (BASE_URL E)) s in
  let s := Value.set "root_id" (match root, Analysis.root self with
                                | Some _, Some k => Value.Int k
                                | _, _ => Value.Str ""
                                end) s in
  let s := Value.set "root_uid" (match root with
                                 | Some r => Value.Str (Analysis.uid r)
                                 | None => Value.Str ""
                                 end) s in
  s.

(** [Analysis.json_data]. *)
Definition Analysis_json_data (self : Analysis.t) : M Value.dict :=
  json_data ← try_loads (λ exc text, exc +:+ ". json_text=" +:+ text)
                        (Analysis.json_text self);
  (* Generates file names. *)
  proj ← fetch "Project" projects (Analysis.project self);
  (* Previously set values. *)
  match Value.or_empty (Value.get "settings" json_data) with
  | Value.Dict current_settings =>
      (* Overwrite any previously set values with current information. *)
      root ← fetch_opt "Analysis" analyses (Analysis.root self);
      let current_settings := derived_settings self proj root current_settings in
      (* Put them back into settings. *)
      mret (Value.set "settings" (Value.Dict current_settings) json_data)
  | _ => raise (TypeError "object does not support item assignment")
  end.

Definition Analysis_save (self : Analysis.t) : M Analysis.t :=
  now ← timezone_now;
  uid ← or_uuid (Analysis.uid self) 8;
  let date := Py.opt_or (Analysis.date self) (Some now) in
  let text := Py.str_or (Analysis.text self) "Recipe description" in
  let name := Py.str_or (Py.take (MAX_NAME_LEN E) (Analysis.name self)) "New Recipe" in
  user ← fetch_opt "User" users (Analysis.lastedit_user self);
  let html := make_html text user in
  lastedit_user ←
    match Analysis.lastedit_user self, Analysis.owner self with
    | Some u, _ => mret (Some u)
    | None, Some o => _ ← fetch "User" users o; mret (Some o)
    | None, None => raise (DoesNotExist "User")
    end;
  let lastedit_date := Py.opt_or (Analysis.lastedit_date self) (Some now) in
  (* Ensure Unix line endings. *)
  let template := if Py.truthy (Analysis.template self)
                  then Py.replace_crlf (Analysis.template self) else "" in
  proj ← fetch "Project" projects (Analysis.project self);
  _ ← modify (set_projects (fmap (λ p,
         if bool_decide (Project.uid p = Project.uid proj)
         then with_lastedit (Some now) lastedit_user p else p)));
  _ ← Project_set_counts proj true;
  w ← get_world;
  _ ← check (bool_decide (is_Some (Analysis.owner self))) "owner";
  _ ← check (unique (analyses w) (Analysis.pk self) (λ a, Some (Analysis.uid a))
               (Some uid)) "uid";
  Model_save analyses set_analyses (Analysis.pk self) (λ adding k,
    {| Analysis.pk := Some k;
       Analysis.security := Analysis.security self;
       Analysis.deleted := Analysis.deleted self;
       Analysis.uid := uid;
       Analysis.name := name;
       Analysis.text := text;
       Analysis.html := html;
       Analysis.owner := Analysis.owner self;
       Analysis.root := Analysis.root self;
       Analysis.lastedit_user := lastedit_user;
       Analysis.lastedit_date := lastedit_date;
       Analysis.project := Analysis.project self;
       Analysis.json_text := Analysis.json_text self;
       Analysis.template := template;
       Analysis.last_valid := Analysis.last_valid self;
       Analysis.date := if adding then Some now else date;
       Analysis.image := Analysis.image self |}).

Definition Analysis_get_project_dir (self : Analysis.t) : M string :=
  proj ← fetch "Project" projects (Analysis.project self);
  Project_get_project_dir proj.

(** What [children.update(...)] writes into one child. *)
Definition inherit (self child : Analysis.t) : Analysis.t :=
  {| Analysis.pk := Analysis.pk child;
     Analysis.security := Analysis.security self;
     Analysis.deleted := Analysis.deleted child;
     Analysis.uid := Analysis.uid child;
     Analysis.name := Analysis.name self;
     Analysis.text := Analysis.text self;
     Analysis.html := Analysis.html self;
     Analysis.owner := Analysis.owner child;
     Analysis.root := Analysis.root child;
     Analysis.lastedit_user := Analysis.lastedit_user self;
     Analysis.lastedit_date := Analysis.lastedit_date self;
     Analysis.project := Analysis.project child;
     Analysis.json_text := Analysis.json_text self;
     Analysis.template := Analysis.template self;
     Analysis.last_valid := Analysis.last_valid child;
     Analysis.date := Analysis.date child;
     Analysis.image := Analysis.image self |}.

(** [Project.objects.filter(analysis__root=self)]: the projects that hold
    a recipe whose root is [r]. *)
Definition holds_clone_of (r : Z) (table : gmap Z Analysis.t) (project : Z) : bool :=
  bool_decide (map_Exists (λ _ c, Analysis.project c = project
                                  ∧ Analysis.root c = Some r) table).

(** [Analysis.update_children].  A recipe that was never saved cannot be
    passed to a filter: Django raises [ValueError]. *)
Definition Analysis_update_children (self : Analysis.t) : M unit :=
  match Analysis.pk self with
  | None => raise (ValueError "Model instances passed to related filters must be saved.")
  | Some r =>
      (* Get all children of this root and update their information. *)
      _ ← modify (set_analyses (fmap (λ c,
             if bool_decide (Analysis.root c = Some r) then inherit self c
             else c)));
      (* Update last edit user and date for children projects. *)
      w ← get_world;
      modify (set_projects (map_imap (λ k p,
        Some (if holds_clone_of r (analyses w) k
              then with_lastedit (Analysis.lastedit_date self)
                                 (Analysis.lastedit_user self) p
              else p))))
  end.

(** *** Job *)

Definition Job_get_project_dir (self : Job.t) : M string :=
  proj ← fetch "Project" projects (Job.project self);
  Project_get_project_dir proj.

Definition Job_get_data_dir (self : Job.t) : string :=
  join (MEDIA_ROOT E) ["jobs"; Job.uid self].

Definition Job_make_path (self : Job.t) : string :=
  join (MEDIA_ROOT E) ["jobs"; Job.uid self].

(** [Job.json_data]. *)
Definition Job_json_data (self : Job.t) : M Value.dict :=
  try_loads (λ exc text, exc +:+ "; text=" +:+ text) (Job.json_text self).

(** [self.analysis]. *)
Definition Job_analysis (self : Job.t) : M Analysis.t :=
  fetch "Analysis" analyses (Job.analysis self).

(** [Job.runnable]. *)
Definition Job_runnable (self : Job.t) : M bool :=
  recipe ← Job_analysis self;
  let authorized := Analysis.runnable recipe
                    && bool_decide (Job.security self = Job.AUTHORIZED) in
  mret authorized.

Definition Job_save (self : Job.t) : M Job.t :=
  now ← timezone_now;
  name ← (if Py.truthy (Job.name self) then mret (Job.name self)
          else recipe ← Job_analysis self;
               mret ("Results for: " +:+ Analysis.name recipe));
  let date := Py.opt_or (Job.date self) (Some now) in
  text ← (if Py.truthy (Job.text self) then mret (Job.text self)
          else recipe ← Job_analysis self; mret (Analysis.text recipe));
  user ← fetch_opt "User" users (Job.lastedit_user self);
  let html := make_html text user in
  let name := Py.take (MAX_NAME_LEN E) name in
  uid ← or_uuid (Job.uid self) 8;
  recipe ← Job_analysis self;
  let template := Analysis.template recipe in
  let stderr_log := Py.take (MAX_LOG_LEN E) (Job.stderr_log self) in
  let stdout_log := Py.take (MAX_LOG_LEN E) (Job.stdout_log self) in
  let name := Py.str_or name (Analysis.name recipe) in
  let path := join (MEDIA_ROOT E) ["jobs"; uid] in
  lastedit_user ←
    match Job.lastedit_user self, Job.owner self with
    | Some u, _ => mret (Some u)
    | None, Some o => _ ← fetch "User" users o; mret (Some o)
    | None, None => raise (DoesNotExist "User")
    end;
  let lastedit_date := Py.opt_or (Job.lastedit_date self) (Some now) in
  present ← isdir path;
  _ ← (if negb present then makedirs path else mret tt);
  proj ← fetch "Project" projects (Job.project self);
  _ ← Project_set_counts proj true;
  _ ← check (bool_decide (is_Some (Job.owner self))) "owner";
  Model_save jobs set_jobs (Job.pk self) (λ adding k,
    {| Job.pk := Some k;
       Job.state := Job.state self;
       Job.deleted := Job.deleted self;
       Job.name := name;
       Job.lastedit_user := lastedit_user;
       Job.lastedit_date := lastedit_date;
       Job.owner := Job.owner self;
       Job.text := text;
       Job.html := html;
       Job.date := if adding then Some now else date;
       Job.start_date := Job.start_date self;
       Job.end_date := Job.end_date self;
       Job.analysis := Job.analysis self;
       Job.project := Job.project self;
       Job.json_text := Job.json_text self;
       Job.uid := uid;
       Job.template := template;
       Job.security := Job.security self;
       Job.script := Job.script self;
       Job.stdout_log := stdout_log;
       Job.stderr_log := stderr_log;
       Job.valid := Job.valid self;
       Job.path := path |}).

End Models.

(** ** New instances, with the defaults of the field declarations *)

Definition Project_new (now : datetime) (owner : Z) : Project.t :=
  {| Project.pk := None;
     Project.lastedit_user := None;
     Project.lastedit_date := Some now;
     Project.privacy := Project.PRIVATE;
     Project.name := "New Project";
     Project.deleted := false;
     Project.owner := Some owner;
     Project.text := "Project description.";
     Project.html := "html";
     Project.date := None;
     Project.uid := "";
     Project.label := None;
     Project.sharable_token := None;
     Project.data_count := 0;
     Project.recipes_count := 0;
     Project.jobs_count := 0 |}.

Definition Data_new (now : datetime) (project : Z) : Data.t :=
  {| Data.pk := None;
     Data.state := Data.PENDING;
     Data.method := Data.LINK;
     Data.name := "My Data";
     Data.deleted := false;
     Data.lastedit_user := None;
     Data.lastedit_date := Some now;
     Data.owner := None;
     Data.text := "Data description.";
     Data.html := "html";
     Data.date := None;
     Data.type := "DATA";
     Data.project := project;
     Data.size := 0;
     Data.file := "";
     Data.file_count := 0;
     Data.uid := "" |}.

Definition Analysis_new (now : datetime) (owner project : Z) (root : option Z)
    (template : string) : Analysis.t :=
  {| Analysis.pk := None;
     Analysis.security := Analysis.NOT_AUTHORIZED;
     Analysis.deleted := false;
     Analysis.uid := "";
     Analysis.name := "New Recipe";
     Analysis.text := "This is the recipe description.";
     Analysis.html := "html";
     Analysis.owner := Some owner;
     Analysis.root := root;
     Analysis.lastedit_user := None;
     Analysis.lastedit_date := Some now;
     Analysis.project := project;
     Analysis.json_text := "";
     Analysis.template := template;
     Analysis.last_valid := "";
     Analysis.date := None;
     Analysis.image := "" |}.

Definition Job_new (now : datetime) (owner analysis project : Z)
    (security : Z) (start_date end_date : option datetime) : Job.t :=
  {| Job.pk := None;
     Job.state := Job.QUEUED;
     Job.deleted := false;
     Job.name := "New results";
     Job.lastedit_user := None;
     Job.lastedit_date := Some now;
     Job.owner := Some owner;
     Job.text := "Result description.";
     Job.html := "html";
     Job.date := None;
     Job.start_date := start_date;
     Job.end_date := end_date;
     Job.analysis := analysis;
     Job.project := project;
     Job.json_text := "commands";
     Job.uid := "";
     Job.template := "makefile";
     Job.security := security;
     Job.script := "";
     Job.stdout_log := "";
     Job.stderr_log := "";
     Job.valid := true;
     Job.path := "" |}.

(** [self.template = template]. *)
Definition Analysis_with_template (template : string) (self : Analysis.t) : Analysis.t :=
  {| Analysis.pk := Analysis.pk self;
     Analysis.security := Analysis.security self;
     Analysis.deleted := Analysis.deleted self;
     Analysis.uid := Analysis.uid self;
     Analysis.name := Analysis.name self;
     Analysis.text := Analysis.text self;
     Analysis.html := Analysis.html self;
     Analysis.owner := Analysis.owner self;
     Analysis.root := Analysis.root self;
     Analysis.lastedit_user := Analysis.lastedit_user self;
     Analysis.lastedit_date := Analysis.lastedit_date self;
     Analysis.project := Analysis.project self;
     Analysis.json_text := Analysis.json_text self;
     Analysis.template := template;
     Analysis.last_valid := Analysis.last_valid self;
     Analysis.date := Analysis.date self;
     Analysis.image := Analysis.image self |}.

(** [self.security = security]. *)
Definition Analysis_with_security (security : Z) (self : Analysis.t) : Analysis.t :=
  {| Analysis.pk := Analysis.pk self;
     Analysis.security := security;
     Analysis.deleted := Analysis.deleted self;
     Analysis.uid := Analysis.uid self;
     Analysis.name := Analysis.name self;
     Analysis.text := Analysis.text self;
     Analysis.html := Analysis.html self;
     Analysis.owner := Analysis.owner self;
     Analysis.root := Analysis.root self;
     Analysis.lastedit_user := Analysis.lastedit_user self;
     Analysis.lastedit_date := Analysis.lastedit_date self;
     Analysis.project := Analysis.project self;
     Analysis.json_text := Analysis.json_text self;
     Analysis.template := Analysis.template self;
     Analysis.last_valid := Analysis.last_valid self;
     Analysis.date := Analysis.date self;
     Analysis.image := Analysis.image self |}.

(** [self.deleted = deleted]. *)
Definition Analysis_with_deleted (deleted : bool) (self : Analysis.t) : Analysis.t :=
  {| Analysis.pk := Analysis.pk self;
     Analysis.security := Analysis.security self;
     Analysis.deleted := deleted;
     Analysis.uid := Analysis.uid self;
     Analysis.name := Analysis.name self;
     Analysis.text := Analysis.text self;
     Analysis.html := Analysis.html self;
     Analysis.owner := Analysis.owner self;
     Analysis.root := Analysis.root self;
     Analysis.lastedit_user := Analysis.lastedit_user self;
     Analysis.lastedit_date := Analysis.lastedit_date self;
     Analysis.project := Analysis.project self;
     Analysis.json_text := Analysis.json_text self;
     Analysis.template := Analysis.template self;
     Analysis.last_valid := Analysis.last_valid self;
     Analysis.date := Analysis.date self;
     Analysis.image := Analysis.image self |}.

(** [self.json_text = json_text]. *)
Definition Analysis_with_json_text (json_text : string) (self : Analysis.t) : Analysis.t :=
  {| Analysis.pk := Analysis.pk self;
     Analysis.security := Analysis.security self;
     Analysis.deleted := Analysis.deleted self;
     Analysis.uid := Analysis.uid self;
     Analysis.name := Analysis.name self;
     Analysis.text := Analysis.text self;
     Analysis.html := Analysis.html self;
     Analysis.owner := Analysis.owner self;
     Analysis.root := Analysis.root self;
     Analysis.lastedit_user := Analysis.lastedit_user self;
     Analysis.lastedit_date := Analysis.lastedit_date self;
     Analysis.project := Analysis.project self;
     Analysis.json_text := json_text;
     Analysis.template := Analysis.template self;
     Analysis.last_valid := Analysis.last_valid self;
     Analysis.date := Analysis.date self;
     Analysis.image := Analysis.image self |}.

(** ** Notions used by the properties *)

(** A computation that leaves one component of the store as it was,
    whether it returns or raises. *)
Definition preserves {A X} (f : World → X) (m : M A) : Prop :=
  ∀ w, f (m w).2 = f w.

(** The rows that the counts of the projects are taken from. *)
Definition tables (w : World) : gmap Z Data.t * gmap Z Analysis.t * gmap Z Job.t :=
  (datas w, analyses w, jobs w).

(** The stored rows of the projects carry their primary key. *)
Definition keyed (w : World) : Prop :=
  ∀ k P, projects w !! k = Some P → Project.pk P = Some k.

(** The fields that a clone mirrors: those that [update_children] writes. *)
Definition mirrors (root clone : Analysis.t) : Prop :=
  Analysis.json_text clone = Analysis.json_text root
  ∧ Analysis.template clone = Analysis.template root
  ∧ Analysis.name clone = Analysis.name root
  ∧ Analysis.security clone = Analysis.security root
  ∧ Analysis.lastedit_date clone = Analysis.lastedit_date root
  ∧ Analysis.lastedit_user clone = Analysis.lastedit_user root
  ∧ Analysis.text clone = Analysis.text root
  ∧ Analysis.html clone = Analysis.html root
  ∧ Analysis.image clone = Analysis.image root.

(** ** A small installation, for the examples

    One trusted user, the media and manifest directories, and stand-ins
    for the libraries: the parser knows the payloads that the examples
    store and rejects any other text. *)
Definition demo_loads (text : string) : string + Value.dict :=
  if bool_decide (text = "") then inr []
  else if bool_decide (text = "settings = 1")
  then inr [("settings", Value.Int 1)]
  else if bool_decide (text = "[settings]" +:+ newline +:+ "cores = 4")
  then inr [("settings", Value.Dict [("cores", Value.Int 4)])]
  else inl "Invalid TOML".

Definition demo_env : Env :=
  {| MEDIA_ROOT := "/export/media";
     TOC_ROOT := "/export/tocs";
     BASE_URL := "https://www.example.org";
     MAX_NAME_LEN := 256;
     MAX_LOG_LEN := 2000;
     markdown := λ text _, "<p>" +:+ text +:+ "</p>";
     abspath := λ p, p;
     uuid := λ n limit, Py.take limit (Py.str_of_int (Z.of_nat n)
                                       +:+ "abcdefghijklmnopqrstuvwxyz012");
     loads := demo_loads |}.

Definition demo_world : World :=
  {| users := {[ 1 := User.mk 1 true ]};
     projects := ∅;
     accesses := [];
     datas := ∅;
     analyses := ∅;
     jobs := ∅;
     dirs := list_to_set ["/export"; "/export/media"; "/export/tocs"];
     files := ∅;
     log := [];
     clock := 1000000;
     draws := 0 |}.

Definition pk_of (k : option Z) : Z := Py.opt_default k 0.

(** A project, a recipe in it with the template ["echo hi"], a clone of
    the recipe; then the template of the recipe is edited and the recipe
    is saved.  [propagate] says whether [update_children] is called after
    the save.  The result is the recipe and the stored clone. *)
Definition clone_scenario (propagate : bool) : M (Analysis.t * option Analysis.t) :=
  P ← Project_save demo_env (Project_new 1000000 1);
  R ← Analysis_save demo_env
        (Analysis_new 1000000 1 (pk_of (Project.pk P)) None "echo hi");
  C ← Analysis_save demo_env
        (Analysis_new 1000000 1 (pk_of (Project.pk P)) (Analysis.pk R) "echo hi");
  R ← Analysis_save demo_env (Analysis_with_template "echo bye" R);
  _ ← (if propagate then Analysis_update_children R else mret tt);
  w ← get_world;
  mret (R, analyses w !! pk_of (Analysis.pk C)).

(** The project, the recipe and its clone before the edit. *)
Definition unedited : outcome (Analysis.t * Analysis.t) * World :=
  (P ← Project_save demo_env (Project_new 1000000 1);
   R ← Analysis_save demo_env
         (Analysis_new 1000000 1 (pk_of (Project.pk P)) None "echo hi");
   C ← Analysis_save demo_env
         (Analysis_new 1000000 1 (pk_of (Project.pk P)) (Analysis.pk R) "echo hi");
   mret (R, C)) demo_world.

Definition unedited_world : World := unedited.2.

Definition unedited_root : Analysis.t :=
  match unedited.1 with
  | Ok (R, _) => R
  | Raise _ => Analysis_new 0 0 0 None ""
  end.

(** The store after the edited recipe was saved, and the recipe. *)
Definition edited_world : World := (clone_scenario false demo_world).2.

Definition edited_root : Analysis.t :=
  match (clone_scenario false demo_world).1 with
  | Ok (R, _) => R
  | Raise _ => Analysis_new 0 0 0 None ""
  end.

(** A recipe whose stored payload is the text [json_text], and what
    [json_data] makes of it. *)
Definition payload_scenario (json_text : string) (root : bool) : M Value.dict :=
  P ← Project_save demo_env (Project_new 1000000 1);
  R ← Analysis_save demo_env
        (Analysis_new 1000000 1 (pk_of (Project.pk P)) None "echo hi");
  C ← Analysis_save demo_env
        (Analysis_with_json_text json_text
           (Analysis_new 1000000 1 (pk_of (Project.pk P))
              (if root then None else Analysis.pk R) "echo hi"));
  Analysis_json_data demo_env C.

(** What the parser made of a text, or the empty table. *)
Definition parsed (E : Env) (text : string) : Value.dict :=
  match loads E text with inr table => table | inl _ => [] end.

(** What [json_data] reads as the settings of a payload is a table. *)
Definition settings_is_table (table : Value.dict) : Prop :=
  match Value.or_empty (Value.get "settings" table) with
  | Value.Dict _ => True
  | _ => False
  end.

(** The collection that [make_toc] sorts: the regular files under [dir],
    in the order of the strings. *)
Definition sorted_walk (fs : gmap string string) (dir : string) : list string :=
  merge_sort String.le
    (filter (λ p, Py.startswith (dir +:+ "/") p = true) (elements (dom fs))).

(** The sizes of the listed files that exist, added up. *)
Definition total_size (fs : gmap string string) (listing : list string) : Z :=
  foldr (λ p total, match fs !! p with
                    | Some content => st_size content + total
                    | None => total
                    end) 0 listing.

(** A file is put into the store by an upload or by a job. *)
Definition put_file (path content : string) : M unit :=
  modify (set_files (λ f, <[path := content]> f)).

(** A project and a data in it; the files [b.txt] and [a.txt] are put into
    the directory of the data, and the table of contents is made, once or
    twice.  [gone] holds the files that disappear during the first call. *)
Definition toc_scenario (gone : gset string) (twice : bool) : M (Data.t * string) :=
  P ← Project_save demo_env (Project_new 1000000 1);
  D ← Data_save demo_env (Data_new 1000000 (pk_of (Project.pk P)));
  data_dir ← Data_get_data_dir demo_env D;
  _ ← put_file (data_dir +:+ "/b.txt") "bb";
  _ ← put_file (data_dir +:+ "/a.txt") "a";
  '(D, tocname) ← Data_make_toc demo_env gone D;
  if twice then Data_make_toc demo_env ∅ D else mret (D, tocname).

(** The store and the data of the table-of-contents example, before the
    table is made. *)
Definition toc_setup : outcome Data.t * World :=
  (P ← Project_save demo_env (Project_new 1000000 1);
   D ← Data_save demo_env (Data_new 1000000 (pk_of (Project.pk P)));
   data_dir ← Data_get_data_dir demo_env D;
   _ ← put_file (data_dir +:+ "/b.txt") "bb";
   _ ← put_file (data_dir +:+ "/a.txt") "a";
   mret D) demo_world.

Definition toc_world : World := toc_setup.2.

Definition toc_data : Data.t :=
  match toc_setup.1 with Ok D => D | Raise _ => Data_new 0 0 end.

(** A project with an authorized recipe, and a job of the recipe with the
    security [security]. *)
Definition runnable_setup : outcome Analysis.t * World :=
  (P ← Project_save demo_env (Project_new 1000000 1);
   Analysis_save demo_env
     (Analysis_with_security Analysis.AUTHORIZED
        (Analysis_new 1000000 1 (pk_of (Project.pk P)) None "echo hi")))
    demo_world.

Definition runnable_world : World := runnable_setup.2.

Definition runnable_recipe : Analysis.t :=
  match runnable_setup.1 with
  | Ok R => R
  | Raise _ => Analysis_new 0 0 0 None ""
  end.

Definition runnable_job (security : Z) : Job.t :=
  Job_new 1000000 1 1 1 security None None.

(** The counts stored with a project next to the numbers of its live rows:
    data, recipes, jobs. *)
Definition counts_and_rows (project : Z) : M (option (Z * Z * Z) * (Z * Z * Z)) :=
  w ← get_world;
  mret ((λ P, (Project.data_count P, Project.recipes_count P, Project.jobs_count P))
          <$> projects w !! project,
        (count_rows (live_data (Some project)) (datas w),
         count_rows (live_recipe (Some project)) (analyses w),
         count_rows (live_job (Some project)) (jobs w))).

(** A project and the first recipe saved in it. *)
Definition first_recipe_scenario : M (option (Z * Z * Z) * (Z * Z * Z)) :=
  P ← Project_save demo_env (Project_new 1000000 1);
  _ ← Analysis_save demo_env
        (Analysis_new 1000000 1 (pk_of (Project.pk P)) None "echo hi");
  counts_and_rows (pk_of (Project.pk P)).

(** The same recipe, then deleted (softly) and saved again. *)
Definition deleted_recipe_scenario : M (option (Z * Z * Z) * (Z * Z * Z)) :=
  P ← Project_save demo_env (Project_new 1000000 1);
  R ← Analysis_save demo_env
        (Analysis_new 1000000 1 (pk_of (Project.pk P)) None "echo hi");
  _ ← Analysis_save demo_env (Analysis_with_deleted true R);
  counts_and_rows (pk_of (Project.pk P)).

(** A project, a recipe and the first job saved for it. *)
Definition first_job_scenario : M (option (Z * Z * Z) * (Z * Z * Z)) :=
  P ← Project_save demo_env (Project_new 1000000 1);
  R ← Analysis_save demo_env
        (Analysis_new 1000000 1 (pk_of (Project.pk P)) None "echo hi");
  _ ← Job_save demo_env
        (Job_new 1000000 1 (pk_of (Analysis.pk R)) (pk_of (Project.pk P))
                 Job.UNDER_REVIEW None None);
  counts_and_rows (pk_of (Project.pk P)).

(** A project and the first data saved in it. *)
Definition first_data_scenario : M (option (Z * Z * Z) * (Z * Z * Z)) :=
  P ← Project_save demo_env (Project_new 1000000 1);
  _ ← Data_save demo_env (Data_new 1000000 (pk_of (Project.pk P)));
  counts_and_rows (pk_of (Project.pk P)).

(** * Properties *)

(** ** Floats: the quotients that [Job.elapsed] computes *)

Lemma log2_in (s c : Z) : 0 ≤ c → 2 ^ c ≤ s < 2 ^ (c + 1) → Z.log2 s = c.
Proof. intros Hc Hs. apply Z.log2_unique; [done|]. by rewrite Z.add_1_r in Hs. Qed.

Ltac eval_pow :=
  repeat match goal with
  | |- context [Z.pow (Zpos ?a) (Zpos ?b)] =>
      let c := eval vm_compute in (Z.pow (Zpos a) (Zpos b)) in
      change (Z.pow (Zpos a) (Zpos b)) with c
  | H : context [Z.pow (Zpos ?a) (Zpos ?b)] |- _ =>
      let c := eval vm_compute in (Z.pow (Zpos a) (Zpos b)) in
      change (Z.pow (Zpos a) (Zpos b)) with c in H
  end.

(** Rounding to nearest moves a quotient by at most one half. *)
Lemma round_half_even_near (n d : Z) :
  0 < d →
  2 * d * Float.round_half_even n d - d ≤ 2 * n
    ≤ 2 * d * Float.round_half_even n d + d.
Proof.
  intros Hd. unfold Float.round_half_even.
  pose proof (Z.div_mod n d ltac:(lia)) as Hdm.
  pose proof (Z.mod_pos_bound n d Hd) as Hr.
  destruct (Z.compare_spec (2 * (n mod d)) d); [destruct (Z.even _)|..]; nia.
Qed.

(** The quotient once the binary logarithms of the operands are known. *)
Lemma div_int_at (a b la lb : Z) :
  a ≠ 0 → Z.log2 a = la → Z.log2 b = lb → 0 ≤ 52 - (la - lb) →
  Float.div_int a b =
    if a * 2 ^ (52 - (la - lb)) <? b * 2 ^ 52
    then Float.mk (Float.round_half_even (a * 2 ^ (52 - (la - lb) + 1)) b)
                  (52 - (la - lb) + 1)
    else Float.mk (Float.round_half_even (a * 2 ^ (52 - (la - lb))) b)
                  (52 - (la - lb)).
Proof.
  intros Ha <- <- Hk. unfold Float.div_int.
  destruct (Z.eqb_spec a 0) as [|_]; [done|].
  destruct (Z.leb_spec 0 (52 - (Z.log2 a - Z.log2 b))) as [_|]; [|lia].
  destruct (_ <? _).
  - destruct (Z.leb_spec 0 (52 - (Z.log2 a - Z.log2 b) + 1)) as [_|]; [done|lia].
  - destruct (Z.leb_spec 0 (52 - (Z.log2 a - Z.log2 b))) as [_|]; [done|lia].
Qed.

(** [s] has [c + 1] bits and is divided by [b], which has [lb + 1]: unfold
    the quotient, fix its scale, and leave the roundings as unknowns
    bounded by [round_half_even_near]. *)
Ltac quotient_case s b c lb after :=
  let k := eval vm_compute in (52 - (c - lb)) in
  let k1 := eval vm_compute in (52 - (c - lb) + 1) in
  rewrite (div_int_at s b c lb);
    [ | lia | apply log2_in; [lia | eval_pow; lia] | by apply log2_in | lia ];
  change (52 - (c - lb) + 1) with k1; change (52 - (c - lb)) with k;
  match goal with |- context [?x <? ?y] => destruct (Z.ltb_spec x y) end;
  unfold Float.trunc, Float.round1; cbn [Float.scale Float.mant];
  [ change (0 <=? k1) with true | change (0 <=? k) with true ]; cbv iota;
  after.

Ltac forget_rounding :=
  repeat match goal with
  | |- context [Float.round_half_even ?n ?d] =>
      lazymatch n with
      | context [Float.round_half_even] => fail
      | _ => pose proof (round_half_even_near n d ltac:(lia));
             generalize dependent (Float.round_half_even n d); intros
      end
  end.

(** [int(seconds / 60)] is the integer quotient. *)
Lemma minutes_quotient (s : Z) :
  60 ≤ s < 3600 → Float.trunc (Float.div_int s 60) = s / 60.
Proof.
  intros Hs.
  assert (s < 64 ∨ 64 ≤ s < 128 ∨ 128 ≤ s < 256 ∨ 256 ≤ s < 512
          ∨ 512 ≤ s < 1024 ∨ 1024 ≤ s < 2048 ∨ 2048 ≤ s)
    as [?|[?|[?|[?|[?|[?|?]]]]]] by lia;
  [ quotient_case s 60 5 5 forget_rounding
  | quotient_case s 60 6 5 forget_rounding
  | quotient_case s 60 7 5 forget_rounding
  | quotient_case s 60 8 5 forget_rounding
  | quotient_case s 60 9 5 forget_rounding
  | quotient_case s 60 10 5 forget_rounding
  | quotient_case s 60 11 5 forget_rounding ];
  eval_pow; Z.to_euclidean_division_equations; lia.
Qed.

(** [round(seconds / 3600, 1)] is a tenth nearest to the quotient. *)
Lemma hours_tenths (s : Z) :
  3600 ≤ s < 86400 →
  360 * Float.round1 (Float.div_int s 3600) - 180 ≤ s
    ≤ 360 * Float.round1 (Float.div_int s 3600) + 180.
Proof.
  intros Hs.
  assert (s < 4096 ∨ 4096 ≤ s < 8192 ∨ 8192 ≤ s < 16384 ∨ 16384 ≤ s < 32768
          ∨ 32768 ≤ s < 65536 ∨ 65536 ≤ s) as [?|[?|[?|[?|[?|?]]]]] by lia;
  [ quotient_case s 3600 11 11 forget_rounding
  | quotient_case s 3600 12 11 forget_rounding
  | quotient_case s 3600 13 11 forget_rounding
  | quotient_case s 3600 14 11 forget_rounding
  | quotient_case s 3600 15 11 forget_rounding
  | quotient_case s 3600 16 11 forget_rounding ];
  eval_pow; lia.
Qed.

(** The quotient is the one of the reference implementation of binary64,
    at exact quotients, at rounding ties and around them. *)
Example div_int_agrees_with_reference :
  forallb (λ ab, Float.agrees_with_reference ab.1 ab.2)
    [(60, 60); (61, 60); (119, 60); (125, 60); (3599, 60); (1, 60); (59, 60);
     (3600, 3600); (3780, 3600); (4140, 3600); (4500, 3600); (5400, 3600);
     (7199, 3600); (7200, 3600); (36000, 3600); (45180, 3600); (86399, 3600);
     (1, 3); (2, 3); (1, 10)] = true.
Proof. vm_compute. reflexivity. Qed.

(** What Python prints for some of them. *)
Example round1_examples :
  map (λ s, Float.repr1 (Float.round1 (Float.div_int s 3600)))
      [3600; 3780; 4140; 4500; 5400; 86399]
  = ["1.0"; "1.1"; "1.1"; "1.2"; "1.5"; "24.0"].
Proof. vm_compute. reflexivity. Qed.

(** ** Strings *)

Lemma append_assoc (a b c : string) : (a +:+ b) +:+ c = a +:+ (b +:+ c).
Proof.
  induction a as [|x a IH]; [done|].
  change (String x ((a +:+ b) +:+ c) = String x (a +:+ (b +:+ c))).
  by rewrite IH.
Qed.

(** ** Timestamps *)

Lemma timedelta_seconds_range (us : Z) :
  0 ≤ Timedelta.seconds (Timedelta.of_microseconds us) < 86400.
Proof. unfold Timedelta.of_microseconds; simpl. Z.to_euclidean_division_equations; lia. Qed.

Lemma timedelta_seconds_short (us : Z) :
  0 ≤ us < 86400000000 →
  Timedelta.seconds (Timedelta.of_microseconds us) = us / 1000000.
Proof. intros H. unfold Timedelta.of_microseconds; simpl. by rewrite Z.mod_small. Qed.

Lemma timedelta_seconds_whole (start n : Z) :
  Timedelta.seconds (datetime_sub (datetime_add_seconds start n) start)
  = n mod 86400.
Proof.
  unfold datetime_sub, datetime_add_seconds, Timedelta.of_microseconds; simpl.
  replace (start + n * 1000000 - start) with (n * 1000000) by lia.
  Z.to_euclidean_division_equations; lia.
Qed.

(** ** Job.elapsed *)

(** C8.  [elapsed] is the empty string when the start or the end is unset.
    Otherwise it reads the whole seconds of the difference of the two
    timestamps (the duration in seconds, rounded down, when that is less
    than a day) and prints them as "N seconds" under 60, as "N minutes"
    with N the integer quotient by 60 under 3600, and above as "N hours"
    with N a multiple of one tenth that is nearest to the quotient by
    3600.  Start and end 125 seconds apart give "2 minutes". *)
Theorem Job_elapsed_buckets (j : Job.t) :
  (Job.start_date j = None ∨ Job.end_date j = None → Job.elapsed j = "")
  ∧ (∀ start stop,
       Job.start_date j = Some start → Job.end_date j = Some stop →
       let seconds := Timedelta.seconds (datetime_sub stop start) in
       (0 ≤ stop - start < 86400000000 → seconds = (stop - start) / 1000000)
       ∧ (seconds < 60 →
          Job.elapsed j = Py.str_of_int seconds +:+ " seconds")
       ∧ (60 ≤ seconds < 3600 →
          Job.elapsed j = Py.str_of_int (seconds / 60) +:+ " minutes")
       ∧ (3600 ≤ seconds →
          ∃ tenths,
            360 * tenths - 180 ≤ seconds ≤ 360 * tenths + 180
            ∧ Job.elapsed j = Py.str_of_int (tenths / 10) +:+ "."
                              +:+ Py.str_of_int (tenths mod 10) +:+ " hours"))
  ∧ (∀ start,
       Job.start_date j = Some start →
       Job.end_date j = Some (datetime_add_seconds start 125) →
       Job.elapsed j = "2 minutes").
Proof.
  split; [|split].
  - unfold Job.elapsed. intros [-> | ->]; [done|]. by destruct (Job.start_date j).
  - intros start stop Hstart Hstop seconds.
    pose proof (timedelta_seconds_range (stop - start)) as Hrange.
    fold (datetime_sub stop start) in Hrange. fold seconds in Hrange.
    unfold Job.elapsed. rewrite Hstart, Hstop. fold seconds.
    split; [|split; [|split]].
    + intros Hshort. by apply timedelta_seconds_short.
    + intros Hlt. by destruct (Z.ltb_spec seconds 60); [|lia].
    + intros Hmid.
      destruct (Z.ltb_spec seconds 60); [lia|].
      destruct (Z.ltb_spec seconds 3600); [|lia].
      by rewrite minutes_quotient.
    + intros Hhigh.
      destruct (Z.ltb_spec seconds 60); [lia|].
      destruct (Z.ltb_spec seconds 3600); [lia|].
      exists (Float.round1 (Float.div_int seconds 3600)).
      split; [apply hours_tenths; lia |].
      unfold Float.repr1. by rewrite !append_assoc.
  - intros start Hstart Hstop. unfold Job.elapsed. rewrite Hstart, Hstop.
    by rewrite timedelta_seconds_whole.
Qed.

(** Runs of 30, 125, 5400 and 4500 seconds. *)
Example Job_elapsed_examples :
  map (λ n, Job.elapsed (Job_new 0 1 1 1 Job.AUTHORIZED (Some 1000)
                           (Some (datetime_add_seconds 1000 n))))
      [30; 125; 5400; 4500]
  = ["30 seconds"; "2 minutes"; "1.5 hours"; "1.2 hours"].
Proof. vm_compute. reflexivity. Qed.

(** C10.  [elapsed] reads only the seconds within the last day of the
    difference: a run of 24 hours and 125 seconds prints "2 minutes", as a
    run of 125 seconds does. *)
Theorem Job_elapsed_ignores_days (j j' : Job.t) (start start' : datetime) :
  Job.start_date j = Some start →
  Job.end_date j = Some (datetime_add_seconds start (24 * 3600 + 125)) →
  Job.start_date j' = Some start' →
  Job.end_date j' = Some (datetime_add_seconds start' 125) →
  Job.elapsed j = "2 minutes" ∧ Job.elapsed j = Job.elapsed j'.
Proof.
  intros Hs He Hs' He'. unfold Job.elapsed.
  rewrite Hs, He, Hs', He'. by rewrite !timedelta_seconds_whole.
Qed.

Lemma Job_elapsed_ignores_days_witness :
  let j := Job_new 0 1 1 1 Job.AUTHORIZED (Some 1000)
             (Some (datetime_add_seconds 1000 (24 * 3600 + 125))) in
  let j' := Job_new 0 1 1 1 Job.AUTHORIZED (Some 5000)
              (Some (datetime_add_seconds 5000 125)) in
  Job.elapsed j = "2 minutes" ∧ Job.elapsed j = Job.elapsed j'.
Proof.
  apply (Job_elapsed_ignores_days _ _ 1000 5000); reflexivity.
Defined.

(** ** Computations *)

Lemma bind_unfold {A B} (m : M A) (k : A → M B) (w : World) :
  (m ≫= k) w = match m w with
               | (Ok a, w') => k a w'
               | (Raise e, w') => (Raise e, w')
               end.
Proof. reflexivity. Qed.

Lemma bind_ok {A B} (m : M A) (k : A → M B) (w w' : World) (b : B) :
  (m ≫= k) w = (Ok b, w') ↔ ∃ a w1, m w = (Ok a, w1) ∧ k a w1 = (Ok b, w').
Proof.
  rewrite bind_unfold. destruct (m w) as [[a|e] w1]; split.
  - intros H. by exists a, w1.
  - by intros (? & ? & [= -> ->] & ?).
  - done.
  - by intros (? & ? & ? & _).
Qed.

Lemma preserves_ret {A X} (f : World → X) (a : A) : preserves f (mret a).
Proof. by intros w. Qed.

Lemma preserves_raise {A X} (f : World → X) (e : exn) : preserves f (@raise A e).
Proof. by intros w. Qed.

Lemma preserves_get_world {X} (f : World → X) : preserves f get_world.
Proof. by intros w. Qed.

Lemma preserves_modify {X} (f : World → X) (g : World → World) :
  (∀ w, f (g w) = f w) → preserves f (modify g).
Proof. intros H w. apply H. Qed.

Lemma preserves_bind {A B X} (f : World → X) (m : M A) (k : A → M B) :
  preserves f m → (∀ a, preserves f (k a)) → preserves f (m ≫= k).
Proof.
  intros Hm Hk w. rewrite bind_unfold. specialize (Hm w).
  destruct (m w) as [[a|e] w1]; simpl in *; [|done].
  by rewrite Hk.
Qed.

Lemma preserves_ok {A X} (f : World → X) (m : M A) (w w' : World) (r : outcome A) :
  preserves f m → m w = (r, w') → f w' = f w.
Proof. intros Hm Hw. specialize (Hm w). by rewrite Hw in Hm. Qed.

Create HintDb store.
#[local] Hint Unfold fetch fetch_opt assert check logger_error timezone_now
  isdir isfile makedirs write_text get_uuid or_uuid vanish : store.
#[local] Hint Unfold Model_save Data_get_data_dir Data_get_project_dir
  Project_get_project_dir Project_uid_is_set Project_owner : store.

Create HintDb frame.

Ltac frame_step :=
  first
    [ solve [eauto with frame nocore]
    | apply preserves_ret
    | apply preserves_raise
    | apply preserves_get_world
    | apply preserves_modify; by intros []
    | apply preserves_bind; [|intros ?]
    | match goal with
      | |- preserves _ (match ?x with _ => _ end) => destruct x
      end
    | progress cbv zeta ].

Ltac solve_frame := autounfold with store; repeat frame_step.

(** Split the first step off a computation that returned, and record that
    the step left the component [f] of the store alone. *)
Ltac split_step f H :=
  let a := fresh "x" in
  let w1 := fresh "w" in
  let Hs := fresh "Hs" in
  let Hf := fresh "Hf" in
  apply bind_ok in H as (a & w1 & Hs & H);
  assert (Hf : f w1 = f _) by (eapply preserves_ok; [|exact Hs]; solve_frame);
  cbv beta zeta in H.

(** Split the first step off a computation that returned. *)
Ltac next_step H :=
  let a := fresh "x" in
  let w1 := fresh "w" in
  let Hs := fresh "Hs" in
  apply bind_ok in H as (a & w1 & Hs & H);
  cbv beta zeta in H.

(** ** Job.runnable *)

(** C9.  [runnable] answers true exactly when the recipe of the job is
    authorized and the job itself is authorized.  With an authorized
    recipe it is false for a job under review and true for an authorized
    job. *)
Theorem Job_runnable_iff (w : World) (j : Job.t) (recipe : Analysis.t) :
  analyses w !! Job.analysis j = Some recipe →
  ∃ b, Job_runnable j w = (Ok b, w)
       ∧ (b = true ↔ Analysis.security recipe = Analysis.AUTHORIZED
                     ∧ Job.security j = Job.AUTHORIZED)
       ∧ (Analysis.security recipe = Analysis.AUTHORIZED →
          (Job.security j = Job.UNDER_REVIEW → b = false)
          ∧ (Job.security j = Job.AUTHORIZED → b = true)).
Proof.
  intros Hrecipe. unfold Job_runnable, Job_analysis, fetch.
  rewrite !bind_unfold; simpl. rewrite Hrecipe; simpl.
  eexists; split; [reflexivity|]. unfold Analysis.runnable.
  rewrite andb_true_iff, !bool_decide_eq_true. split; [done|].
  intros Ha. rewrite Ha. split.
  - intros Hj. rewrite Hj. done.
  - intros Hj. rewrite Hj. done.
Qed.

Lemma Job_runnable_iff_witness :
  analyses runnable_world !! Job.analysis (runnable_job Job.UNDER_REVIEW)
  = Some runnable_recipe
  ∧ ∃ b, Job_runnable (runnable_job Job.UNDER_REVIEW) runnable_world
         = (Ok b, runnable_world)
       ∧ (b = true ↔ Analysis.security runnable_recipe = Analysis.AUTHORIZED
                     ∧ Job.security (runnable_job Job.UNDER_REVIEW) = Job.AUTHORIZED)
       ∧ (Analysis.security runnable_recipe = Analysis.AUTHORIZED →
          (Job.security (runnable_job Job.UNDER_REVIEW) = Job.UNDER_REVIEW → b = false)
          ∧ (Job.security (runnable_job Job.UNDER_REVIEW) = Job.AUTHORIZED → b = true)).
Proof.
  assert (analyses runnable_world !! Job.analysis (runnable_job Job.UNDER_REVIEW)
          = Some runnable_recipe) as H by (vm_compute; reflexivity).
  split; [exact H|].
  exact (Job_runnable_iff runnable_world (runnable_job Job.UNDER_REVIEW)
           runnable_recipe H).
Defined.

(** The job of the authorized recipe: under review, then authorized. *)
Example Job_runnable_example :
  Analysis.security runnable_recipe = Analysis.AUTHORIZED
  ∧ (Job_runnable (runnable_job Job.UNDER_REVIEW) runnable_world).1 = Ok false
  ∧ (Job_runnable (runnable_job Job.AUTHORIZED) runnable_world).1 = Ok true.
Proof. repeat split; vm_compute; reflexivity. Qed.

(** ** Analysis.update_children *)

(** What the call makes of the two tables it writes. *)
Lemma update_children_tables (self : Analysis.t) (r : Z) (w : World) :
  Analysis.pk self = Some r →
  ∃ w', Analysis_update_children self w = (Ok tt, w')
    ∧ analyses w' = (λ c, if bool_decide (Analysis.root c = Some r)
                          then inherit self c else c) <$> analyses w
    ∧ projects w' = map_imap (λ k p,
        Some (if holds_clone_of r (analyses w') k
              then with_lastedit (Analysis.lastedit_date self)
                                 (Analysis.lastedit_user self) p
              else p)) (projects w).
Proof.
  intros Hpk. unfold Analysis_update_children. rewrite Hpk.
  eexists. split; [reflexivity|]. by destruct w.
Qed.

Lemma inherit_mirrors (self c : Analysis.t) : mirrors self (inherit self c).
Proof. by repeat split. Qed.

(** C2.  After [update_children] on a stored root R, every recipe whose
    root is R has the template, security, html, json_text, name, text,
    image, lastedit_date and lastedit_user of R, and every project that
    holds such a recipe has the lastedit_date and lastedit_user of R.  The
    call always returns, and the clones of R before the call are its
    clones after it. *)
Theorem update_children_propagates (w : World) (R : Analysis.t) (r : Z) :
  Analysis.pk R = Some r →
  ∃ w', Analysis_update_children R w = (Ok tt, w')
    ∧ (∀ k A, analyses w' !! k = Some A → Analysis.root A = Some r →
         Analysis.template A = Analysis.template R
         ∧ Analysis.security A = Analysis.security R
         ∧ Analysis.html A = Analysis.html R
         ∧ mirrors R A)
    ∧ (∀ p P, projects w' !! p = Some P →
         (∃ k A, analyses w' !! k = Some A
                 ∧ Analysis.project A = p ∧ Analysis.root A = Some r) →
         Project.lastedit_date P = Analysis.lastedit_date R
         ∧ Project.lastedit_user P = Analysis.lastedit_user R)
    ∧ (∀ k A, analyses w !! k = Some A → Analysis.root A = Some r →
         ∃ A', analyses w' !! k = Some A' ∧ Analysis.root A' = Some r
               ∧ Analysis.project A' = Analysis.project A).
Proof.
  intros Hpk.
  destruct (update_children_tables R r w Hpk) as (w' & Hrun & Ha & Hp).
  exists w'. split; [done|]. split; [|split].
  - intros k A Hk Hroot. rewrite Ha, lookup_fmap in Hk.
    destruct (analyses w !! k) as [c|]; [|done].
    injection Hk as <-. case_bool_decide as Hc.
    + pose proof (inherit_mirrors R c) as Hm.
      split; [apply Hm|]. split; [apply Hm|]. split; [apply Hm|done].
    + by rewrite Hroot in Hc.
  - intros p P HP (k & A & Hk & Hproj & Hroot).
    rewrite Hp, map_lookup_imap in HP.
    destruct (projects w !! p) as [P0|]; [|done]. simpl in HP.
    injection HP as <-.
    assert (holds_clone_of r (analyses w') p = true) as ->; [|done].
    apply bool_decide_eq_true. by exists k, A.
  - intros k A Hk Hroot. rewrite Ha, lookup_fmap, Hk. simpl.
    rewrite bool_decide_eq_true_2 by done. by eexists.
Qed.

Lemma update_children_propagates_witness :
  Analysis.pk edited_root = Some 1
  ∧ ∃ w', Analysis_update_children edited_root edited_world = (Ok tt, w')
    ∧ (∀ k A, analyses w' !! k = Some A → Analysis.root A = Some 1 →
         Analysis.template A = Analysis.template edited_root
         ∧ Analysis.security A = Analysis.security edited_root
         ∧ Analysis.html A = Analysis.html edited_root
         ∧ mirrors edited_root A)
    ∧ (∀ p P, projects w' !! p = Some P →
         (∃ k A, analyses w' !! k = Some A
                 ∧ Analysis.project A = p ∧ Analysis.root A = Some 1) →
         Project.lastedit_date P = Analysis.lastedit_date edited_root
         ∧ Project.lastedit_user P = Analysis.lastedit_user edited_root)
    ∧ (∀ k A, analyses edited_world !! k = Some A → Analysis.root A = Some 1 →
         ∃ A', analyses w' !! k = Some A' ∧ Analysis.root A' = Some 1
               ∧ Analysis.project A' = Analysis.project A).
Proof.
  split; [reflexivity|].
  apply (update_children_propagates edited_world edited_root 1). reflexivity.
Defined.

(** In the store of the example the clone is the second recipe: it holds
    "echo hi" before the call and "echo bye" after it. *)
Example update_children_example :
  Analysis.template <$> analyses edited_world !! 2 = Some "echo hi"
  ∧ ∃ w', Analysis_update_children edited_root edited_world = (Ok tt, w')
          ∧ Analysis.template <$> analyses w' !! 2 = Some "echo bye".
Proof. split; [vm_compute; reflexivity|]. eexists. split; vm_compute; reflexivity. Qed.

(** ** What a save leaves alone *)

Section Saves.
Context (E : Env).

Lemma Project_save_frame (p : Project.t) :
  preserves analyses (Project_save E p)
  ∧ preserves datas (Project_save E p)
  ∧ preserves jobs (Project_save E p).
Proof.
  unfold Project_save, Project_count, Project_get_project_dir,
    Project_uid_is_set, Model_save, update_access.
  split; [|split]; solve_frame.
Qed.

Lemma Project_set_counts_analyses (p : Project.t) (save : bool) :
  preserves analyses (Project_set_counts E p save).
Proof.
  unfold Project_set_counts, Project_count.
  pose proof (λ q, proj1 (Project_save_frame q)).
  solve_frame.
Qed.

#[local] Hint Resolve Project_set_counts_analyses : frame.

(** [Analysis.save] writes one row of the recipes, under the primary key
    of the recipe, and no other. *)
Lemma Analysis_save_stores (R R' : Analysis.t) (w w1 : World) :
  Analysis_save E R w = (Ok R', w1) →
  ∃ r, Analysis.pk R' = Some r
       ∧ (Analysis.pk R = None ∨ Analysis.pk R = Some r)
       ∧ analyses w1 = <[r := R']> (analyses w)
       ∧ Analysis.root R' = Analysis.root R
       ∧ Analysis.template R' = (if Py.truthy (Analysis.template R)
                                 then Py.replace_crlf (Analysis.template R)
                                 else "").
Proof.
  unfold Analysis_save, Model_save. intros H.
  repeat split_step analyses H.
  injection H as <- <-.
  eexists. split; [reflexivity|]. split; [by destruct (Analysis.pk R); auto|].
  split; [|done].
  match goal with Hw : get_world _ = (Ok ?x, ?y) |- _ => injection Hw as <- <- end.
  match goal with |- analyses (set_analyses _ ?y) = _ =>
    destruct y; simpl in *; congruence end.
Qed.

End Saves.

(** ** Saving a root and its clones *)

(** C1, amended.  Saving a recipe R writes the row of R and
    leaves every other recipe as it was: a clone C of R still holds the old
    values when the save of R returns.  Once [update_children] is called on
    the saved R, which always returns, C holds the template of R (with Unix
    line endings) and the other fields that a clone mirrors. *)
Theorem save_then_update_children (E : Env) (w w1 : World)
    (R R' C : Analysis.t) (r c : Z) :
  Analysis.pk R = Some r →
  analyses w !! c = Some C →
  Analysis.root C = Some r →
  c ≠ r →
  Analysis_save E R w = (Ok R', w1) →
  analyses w1 !! c = Some C
  ∧ Analysis.template R' = (if Py.truthy (Analysis.template R)
                            then Py.replace_crlf (Analysis.template R)
                            else "")
  ∧ ∃ w2 C', Analysis_update_children R' w1 = (Ok tt, w2)
             ∧ analyses w2 !! c = Some C'
             ∧ Analysis.root C' = Some r
             ∧ Analysis.template C' = Analysis.template R'
             ∧ mirrors R' C'.
Proof.
  intros Hpk HC Hroot Hne Hsave.
  destruct (Analysis_save_stores E R R' w w1 Hsave)
    as (r' & Hpk' & Hsame & Htable & _ & Htemplate).
  assert (r' = r) as -> by (destruct Hsame; congruence).
  assert (analyses w1 !! c = Some C) as HC1 by (by rewrite Htable, lookup_insert_ne).
  split; [done|]. split; [done|].
  destruct (update_children_tables R' r w1 Hpk') as (w2 & Hrun & Ha & _).
  exists w2, (inherit R' C). split; [done|].
  split; [|split; [done|split; [done|apply inherit_mirrors]]].
  rewrite Ha, lookup_fmap, HC1. simpl. by rewrite bool_decide_eq_true_2.
Qed.

Lemma save_then_update_children_witness :
  ∃ R' w1 C,
    analyses unedited_world !! 2 = Some C
    ∧ Analysis.template C = "echo hi"
    ∧ Analysis_save demo_env (Analysis_with_template "echo bye" unedited_root)
        unedited_world = (Ok R', w1)
    ∧ analyses w1 !! 2 = Some C
    ∧ Analysis.template R' = "echo bye"
    ∧ ∃ w2 C', Analysis_update_children R' w1 = (Ok tt, w2)
               ∧ analyses w2 !! 2 = Some C'
               ∧ Analysis.root C' = Some 1
               ∧ Analysis.template C' = Analysis.template R'
               ∧ mirrors R' C'.
Proof.
  eexists _, _, _.
  split; [vm_compute; reflexivity|]. split; [reflexivity|].
  split; [vm_compute; reflexivity|].
  eapply (save_then_update_children demo_env unedited_world _
            (Analysis_with_template "echo bye" unedited_root) _ _ 1 2).
  - reflexivity.
  - vm_compute; reflexivity.
  - reflexivity.
  - lia.
  - vm_compute; reflexivity.
Defined.

(** Against C1 as it is stated: in the scenario of the spec the
    recipe is saved with the template "echo bye" and the save returns, yet
    the stored clone, whose root is the recipe, still holds "echo hi". *)
Lemma save_does_not_propagate :
  ∃ R C w,
    clone_scenario false demo_world = (Ok (R, Some C), w)
    ∧ Analysis.root C = Analysis.pk R
    ∧ Analysis.template R = "echo bye"
    ∧ Analysis.template C = "echo hi"
    ∧ Analysis.template C ≠ Analysis.template R.
Proof.
  eexists _, _, _. split; [vm_compute; reflexivity|].
  repeat split; try reflexivity. discriminate.
Qed.

(** With the call of [update_children] after the save, the clone holds the
    new template. *)
Example save_and_propagate :
  ∃ R C w,
    clone_scenario true demo_world = (Ok (R, Some C), w)
    ∧ Analysis.template R = "echo bye"
    ∧ Analysis.template C = "echo bye".
Proof. eexists _, _, _. split; [vm_compute; reflexivity|]. by split. Qed.

(** ** Data.save *)

Section Counts.
Context (E : Env).

Lemma Project_save_others (p : Project.t) :
  preserves files (Project_save E p)
  ∧ preserves tables (Project_save E p).
Proof.
  unfold Project_save, Project_count, Project_get_project_dir,
    Project_uid_is_set, Model_save, update_access.
  split; solve_frame.
Qed.

Lemma Project_set_counts_files (p : Project.t) (save : bool) :
  preserves files (Project_set_counts E p save).
Proof.
  unfold Project_set_counts, Project_count.
  pose proof (λ q, proj1 (Project_save_others q)).
  solve_frame.
Qed.

Lemma Project_count_run (p : Project.t) (w : World) :
  Project_count p w
  = (Ok (with_counts p
           (count_rows (live_data (Project.pk p)) (datas w))
           (count_rows (live_recipe (Project.pk p)) (analyses w))
           (count_rows (live_job (Project.pk p)) (jobs w))), w).
Proof. reflexivity. Qed.

(** [Project.save] writes the row of the project with the counts of the
    rows that are stored. *)
Lemma Project_save_counts (p p' : Project.t) (w w' : World) (k : Z) :
  Project.pk p = Some k →
  Project_save E p w = (Ok p', w') →
  projects w' !! k = Some p'
  ∧ tables w' = tables w
  ∧ Project.data_count p' = count_rows (live_data (Some k)) (datas w)
  ∧ Project.recipes_count p' = count_rows (live_recipe (Some k)) (analyses w)
  ∧ Project.jobs_count p' = count_rows (live_job (Some k)) (jobs w).
Proof.
  intros Hpk H.
  pose proof (preserves_ok _ _ _ _ _ (proj2 (Project_save_others p)) H) as Hsame.
  split; [|split; [done|]].
  - unfold Project_save in H. do 15 next_step H.
    apply bind_ok in H as (saved & w15 & Hsaved & H).
    apply bind_ok in H as ([] & w16 & Haccess & H).
    cbv [mret M_ret] in H. injection H as <- <-.
    assert (projects w16 = projects w15) as ->.
    { eapply (preserves_ok projects); [|exact Haccess].
      unfold update_access. solve_frame. }
    match goal with
    | Hc : Project_count _ _ = _ |- _ =>
        rewrite Project_count_run in Hc; injection Hc as <- <-
    end.
    unfold Model_save in Hsaved. simpl in Hsaved. rewrite Hpk in Hsaved.
    cbv [mbind M_bind get_world modify mret M_ret] in Hsaved.
    injection Hsaved as <- <-.
    destruct w14; simpl. by rewrite lookup_insert_eq.
  - unfold Project_save in H.
    do 6 split_step tables H.
    next_step H.
    match goal with
    | Hc : Project_count _ _ = _ |- _ =>
        rewrite Project_count_run in Hc; injection Hc as <- <-
    end.
    do 8 next_step H.
    apply bind_ok in H as (saved & w15 & Hsaved & H).
    apply bind_ok in H as ([] & w16 & Haccess & H).
    cbv [mret M_ret] in H. injection H as <- <-.
    unfold Model_save in Hsaved.
    cbv [mbind M_bind get_world modify mret M_ret] in Hsaved.
    injection Hsaved as <- _. simpl in *.
    rewrite Hpk.
    unfold tables in *.
    repeat match goal with Hf : (_, _, _) = (_, _, _) |- _ =>
      injection Hf as -> -> -> end.
    done.
Qed.

Lemma fetch_ok {A} (model : string) (table : World → gmap Z A) (k : Z)
    (w w' : World) (row : A) :
  fetch model table k w = (Ok row, w') → table w !! k = Some row ∧ w' = w.
Proof.
  unfold fetch. cbv [mbind M_bind get_world mret M_ret raise].
  destruct (table w !! k); [|done]. by intros [= -> ->].
Qed.

(** [Data.save] recounts after it has written its row: when it returns,
    the project of the data records the numbers of its live data, recipes
    and jobs, the data just saved among them. *)
Lemma Data_save_counts (self saved : Data.t) (w w' : World) :
  keyed w →
  Data_save E self w = (Ok saved, w') →
  Data.project saved = Data.project self
  ∧ (∃ k, Data.pk saved = Some k ∧ datas w' !! k = Some saved)
  ∧ ∃ P, projects w' !! Data.project saved = Some P
         ∧ Project.data_count P
           = count_rows (live_data (Some (Data.project saved))) (datas w')
         ∧ Project.recipes_count P
           = count_rows (live_recipe (Some (Data.project saved))) (analyses w')
         ∧ Project.jobs_count P
           = count_rows (live_job (Some (Data.project saved))) (jobs w').
Proof.
  intros Hkeyed H. unfold Data_save in H.
  repeat split_step projects H.
  apply bind_ok in H as (P & w15 & Hcounts & H).
  cbv [mret M_ret] in H. injection H as <- <-.
  match goal with
  | Hf : fetch "Project" projects _ _ = (Ok ?proj, _) |- _ =>
      apply fetch_ok in Hf as [Hproj ->]
  end.
  match goal with
  | Hm : Model_save datas set_datas _ _ ?wa = (Ok ?row, ?wb) |- _ =>
      unfold Model_save in Hm;
      cbv [mbind M_bind get_world modify mret M_ret] in Hm;
      injection Hm as <- <-
  end.
  simpl in Hproj. simpl.
  unfold Project_set_counts in Hcounts.
  apply bind_ok in Hcounts as (counted & w16 & Hcount & Hsave).
  rewrite Project_count_run in Hcount. injection Hcount as <- <-.
  match type of Hproj with
  | projects ?wb !! _ = Some ?proj =>
      assert (Project.pk proj = Some (Data.project self)) as Hpk
  end.
  { apply Hkeyed. rewrite <- Hproj. f_equal. congruence. }
  apply (Project_save_counts _ _ _ _ (Data.project self)) in Hsave
    as (Hstored & Htables & Hd & Hr & Hj); [|done].
  unfold tables in Htables. injection Htables as Hdatas Hanalyses Hjobs.
  split; [done|]. split.
  - eexists. split; [reflexivity|]. rewrite Hdatas.
    simpl. by rewrite lookup_insert_eq.
  - exists P. rewrite Hdatas, Hanalyses, Hjobs. done.
Qed.

#[local] Hint Resolve Project_set_counts_files : frame.

(** Once a data was saved its manifest exists, and the data names it. *)
Lemma Data_save_manifest (self saved : Data.t) (w w' : World) :
  Data_save E self w = (Ok saved, w') →
  Data.file saved = Data_get_path E saved
  ∧ is_Some (files w' !! Data_get_path E saved).
Proof.
  intros H. unfold Data_save in H.
  do 8 next_step H.
  apply bind_ok in H as (there & wa & Hthere & H).
  apply bind_ok in H as ([] & wb & Hwrite & H).
  cbv beta zeta in H.
  repeat split_step files H.
  cbv [mret M_ret] in H. injection H as <- <-.
  match goal with
  | Hm : Model_save datas set_datas _ _ _ = (Ok ?row, _) |- _ =>
      unfold Model_save in Hm;
      cbv [mbind M_bind get_world modify mret M_ret] in Hm;
      injection Hm as <- _
  end.
  split; [reflexivity|].
  unfold Data_get_path in *. simpl in *.
  match goal with |- is_Some (files _ !! ?f) => set (file := f) in * end.
  assert (is_Some (files wb !! file)) as Hfile'.
  2: { match goal with
       | |- is_Some (files ?wz !! _) =>
           by replace (files wz) with (files wb) by congruence
       end. }
  unfold isfile in Hthere.
  cbv [mbind M_bind get_world mret M_ret] in Hthere. injection Hthere as <- <-.
  match type of Hwrite with
  | context [bool_decide ?P] => destruct (bool_decide P) eqn:Hfile
  end; simpl in Hwrite.
  - apply bool_decide_eq_true in Hfile.
    cbv [mret M_ret] in Hwrite. by injection Hwrite as <-.
  - unfold write_text in Hwrite.
    cbv [mbind M_bind get_world modify mret M_ret raise] in Hwrite.
    repeat match type of Hwrite with
    | context [bool_decide ?P] => destruct (bool_decide P)
    end; try done.
    injection Hwrite as <-.
    match goal with |- context [set_files _ ?wa] => destruct wa end; simpl.
    rewrite lookup_insert_eq. by eexists.
Qed.

End Counts.

(** ** The counts of a project *)

(** C5 at failing inputs.  In a new project the first recipe is saved: the
    project records no recipe while one live recipe is stored.  The recipe
    is then deleted and saved: the project records one recipe while none is
    live.  The first job of the project is saved: the project records no
    job while one live job is stored.  Each triple is data, recipes, jobs;
    the first is what the project records, the second what is stored. *)
Theorem saves_leave_counts_stale :
  (first_recipe_scenario demo_world).1 = Ok (Some (0, 0, 0), (0, 1, 0))
  ∧ (deleted_recipe_scenario demo_world).1 = Ok (Some (0, 1, 0), (0, 0, 0))
  ∧ (first_job_scenario demo_world).1 = Ok (Some (0, 1, 0), (0, 1, 1)).
Proof. repeat split; vm_compute; reflexivity. Qed.

(** The stores of the examples are keyed. *)
Example keyed_examples : keyed demo_world ∧ keyed toc_world ∧ keyed edited_world.
Proof.
  unfold keyed. repeat split;
    apply (bool_decide_unpack (map_Forall (λ k P, Project.pk P = Some k) _));
    vm_compute; exact I.
Qed.

(** The save of a data recounts after the row is written: the first data
    of a project is recorded. *)
Example Data_save_counts_example :
  (first_data_scenario demo_world).1 = Ok (Some (1, 0, 0), (1, 0, 0)).
Proof. vm_compute; reflexivity. Qed.

(** ** Parameter payloads *)

Lemma get_set_eq (k : string) (v : Value.t) (d : Value.dict) :
  Value.get k (Value.set k v d) = Some v.
Proof.
  induction d as [|[k' v'] d IH]; simpl.
  - by rewrite bool_decide_eq_true_2.
  - case_bool_decide as Hk; simpl.
    + by rewrite bool_decide_eq_true_2.
    + by rewrite bool_decide_eq_false_2.
Qed.

Lemma get_set_ne (k k' : string) (v : Value.t) (d : Value.dict) :
  k ≠ k' → Value.get k (Value.set k' v d) = Value.get k d.
Proof.
  intros Hne. induction d as [|[k0 v0] d IH]; simpl.
  - by rewrite bool_decide_eq_false_2.
  - case_bool_decide as Hk; simpl.
    + subst k0. by rewrite !bool_decide_eq_false_2.
    + case_bool_decide; [done|apply IH].
Qed.

Lemma try_loads_run (E : Env) (message : string → string → string)
    (text : string) (w : World) :
  try_loads E message text w
  = match loads E text with
    | inr table => (Ok table, w)
    | inl exc => (Ok [], set_log (λ l, (l ++ [message exc text])%list) w)
    end.
Proof. unfold try_loads. by destruct (loads E text). Qed.

(** The settings that [json_data] writes over an empty table. *)
Lemma derived_settings_empty (E : Env) (self : Analysis.t) (proj : Project.t)
    (root : option Analysis.t) :
  derived_settings E self proj root []
  = [("name", Value.Str (Analysis.name self));
     ("template",
      Value.Str ((Py.join "_" (Py.split (Analysis.name self)) +:+ "_"
                  +:+ Project.uid proj +:+ "_"
                  +:+ Py.str_of_opt_int (Analysis.pk self)) +:+ ".sh"));
     ("image",
      Value.Str ((Py.join "_" (Py.split (Analysis.name self)) +:+ "_"
                  +:+ Project.uid proj +:+ "_"
                  +:+ Py.str_of_opt_int (Analysis.pk self)) +:+ ".png"));
     ("id", match Analysis.pk self with
            | Some k => Value.Int k
            | None => Value.NoneV
            end);
     ("recipe_uid", Value.Str (Analysis.uid self));
     ("uid", Value.Str (Analysis.uid self));
     ("help", Value.Str (Analysis.text self));
     ("url", Value.Str (BASE_URL E));
     ("root_id", match root, Analysis.root self with
                 | Some _, Some k => Value.Int k
                 | _, _ => Value.Str ""
                 end);
     ("root_uid", match root with
                  | Some r => Value.Str (Analysis.uid r)
                  | None => Value.Str ""
                  end)].
Proof. reflexivity. Qed.

(** The identifiers among the derived settings, whatever the settings
    held before. *)
Lemma derived_settings_uid (E : Env) (self : Analysis.t) (proj : Project.t)
    (root : option Analysis.t) (current : Value.dict) :
  let s := derived_settings E self proj root current in
  Value.get "uid" s = Some (Value.Str (Analysis.uid self))
  ∧ Value.get "recipe_uid" s = Some (Value.Str (Analysis.uid self))
  ∧ (root = None → Value.get "root_id" s = Some (Value.Str "")
                   ∧ Value.get "root_uid" s = Some (Value.Str "")).
Proof.
  unfold derived_settings; cbv zeta.
  split; [|split; [|intros ->; split]].
  - by rewrite !(get_set_ne "uid") by done; rewrite get_set_eq.
  - by rewrite !(get_set_ne "recipe_uid") by done; rewrite get_set_eq.
  - by rewrite !(get_set_ne "root_id") by done; rewrite get_set_eq.
  - by rewrite get_set_eq.
Qed.

(** [Analysis.json_data], step by step, when the project of the recipe and
    its root can be read. *)
Lemma Analysis_json_data_run (E : Env) (self : Analysis.t) (w : World)
    (proj : Project.t) (root : option Analysis.t) :
  projects w !! Analysis.project self = Some proj →
  (Analysis.root self ≫= λ r, analyses w !! r) = root →
  (∀ r, Analysis.root self = Some r → is_Some (analyses w !! r)) →
  let w' := match loads E (Analysis.json_text self) with
            | inr _ => w
            | inl exc => set_log (λ l, (l ++ [exc +:+ ". json_text="
                                              +:+ Analysis.json_text self])%list) w
            end in
  Analysis_json_data E self w
  = match Value.or_empty (Value.get "settings" (parsed E (Analysis.json_text self))) with
    | Value.Dict current =>
        (Ok (Value.set "settings"
               (Value.Dict (derived_settings E self proj root current))
               (parsed E (Analysis.json_text self))), w')
    | _ => (Raise (TypeError "object does not support item assignment"), w')
    end.
Proof.
  intros Hproj Hroot Hstored w'. subst w'.
  unfold Analysis_json_data, parsed.
  rewrite bind_unfold, try_loads_run.
  destruct (loads E (Analysis.json_text self)) as [exc|table].
  - rewrite bind_unfold. unfold fetch at 1. rewrite bind_unfold. simpl.
    rewrite Hproj. simpl.
    unfold fetch_opt, fetch. destruct (Analysis.root self) as [r|]; simpl in *.
    + destruct (Hstored r eq_refl) as [R HR]. rewrite HR in Hroot. subst root.
      rewrite !bind_unfold. simpl. by rewrite HR.
    + by subst root.
  - rewrite bind_unfold. unfold fetch at 1. rewrite bind_unfold. simpl.
    rewrite Hproj.
    destruct (Value.or_empty (Value.get "settings" table)); try done.
    unfold fetch_opt, fetch. destruct (Analysis.root self) as [r|]; simpl in *.
    + destruct (Hstored r eq_refl) as [R HR]. rewrite HR in Hroot. subst root.
      rewrite !bind_unfold. simpl. by rewrite HR.
    + by subst root.
Qed.

(** C4.  The [try] statement of both [json_data] properties returns a
    table for every text: the table of the parser, or, when the parser
    raises, the empty table after one line was logged.  [Job.json_data]
    therefore returns for every job.  For a recipe whose payload does not
    parse, [Analysis.json_data] returns the table whose only key is
    "settings", holding the derived settings over an empty table. *)
Theorem parse_fails_soft (E : Env) :
  (∀ message text w,
     ∃ table w', try_loads E message text w = (Ok table, w')
       ∧ (∀ exc, loads E text = inl exc →
            table = [] ∧ log w' = (log w ++ [message exc text])%list)
       ∧ (∀ t, loads E text = inr t → table = t ∧ w' = w))
  ∧ (∀ j w,
       ∃ table w', Job_json_data E j w = (Ok table, w')
         ∧ (∀ exc, loads E (Job.json_text j) = inl exc →
              table = []
              ∧ log w' = (log w ++ [exc +:+ "; text=" +:+ Job.json_text j])%list))
  ∧ (∀ a w proj exc,
       loads E (Analysis.json_text a) = inl exc →
       projects w !! Analysis.project a = Some proj →
       (∀ r, Analysis.root a = Some r → is_Some (analyses w !! r)) →
       ∃ w', Analysis_json_data E a w
             = (Ok [("settings",
                     Value.Dict (derived_settings E a proj
                                   (Analysis.root a ≫= λ r, analyses w !! r) []))],
                w')
             ∧ log w' = (log w ++ [exc +:+ ". json_text="
                                   +:+ Analysis.json_text a])%list).
Proof.
  assert (∀ message text w,
     ∃ table w', try_loads E message text w = (Ok table, w')
       ∧ (∀ exc, loads E text = inl exc →
            table = [] ∧ log w' = (log w ++ [message exc text])%list)
       ∧ (∀ t, loads E text = inr t → table = t ∧ w' = w)) as Htry.
  { intros message text w. rewrite try_loads_run.
    destruct (loads E text) as [exc|t]; eexists _, _; (split; [reflexivity|]).
    - split; [|done]. intros ? [= <-]. by destruct w.
    - split; [done|]. by intros ? [= <-]. }
  split; [done|]. split.
  - intros j w. unfold Job_json_data.
    destruct (Htry (λ exc text, exc +:+ "; text=" +:+ text) (Job.json_text j) w)
      as (table & w' & Hrun & Hbad & _).
    by exists table, w'.
  - intros a w proj exc Hbad Hproj Hroot.
    rewrite (Analysis_json_data_run E a w proj _ Hproj eq_refl Hroot).
    unfold parsed. rewrite Hbad. simpl.
    eexists. split; [reflexivity|]. by destruct w.
Qed.

(** A recipe without a root whose payload is not TOML: the line that is
    logged and the table that is returned. *)
Example malformed_payload_example :
  ∃ w, payload_scenario "settings: {" true demo_world
       = (Ok [("settings",
               Value.Dict
                 [("name", Value.Str "New Recipe");
                  ("template", Value.Str "New_Recipe_1abcdefg_2.sh");
                  ("image", Value.Str "New_Recipe_1abcdefg_2.png");
                  ("id", Value.Int 2);
                  ("recipe_uid", Value.Str "3abcdefg");
                  ("uid", Value.Str "3abcdefg");
                  ("help", Value.Str "This is the recipe description.");
                  ("url", Value.Str "https://www.example.org");
                  ("root_id", Value.Str "");
                  ("root_uid", Value.Str "")])], w)
       ∧ log w = ["Invalid TOML. json_text=settings: {"].
Proof. eexists. split; vm_compute; reflexivity. Qed.

(** Where [json_data] does return the settings: when the payload does not
    parse, or parses to a table whose "settings" entry is missing, false or
    itself a table,
    [json_data] returns a table whose "settings" entry is a table with
    "uid" and "recipe_uid" equal to the uid of the recipe, and with empty
    "root_id" and "root_uid" when the recipe has no root. *)
Lemma Analysis_json_data_settings (E : Env) (a : Analysis.t) (w : World)
    (proj : Project.t) :
  projects w !! Analysis.project a = Some proj →
  (∀ r, Analysis.root a = Some r → is_Some (analyses w !! r)) →
  settings_is_table (parsed E (Analysis.json_text a)) →
  ∃ table w' s,
    Analysis_json_data E a w = (Ok table, w')
    ∧ Value.get "settings" table = Some (Value.Dict s)
    ∧ Value.get "uid" s = Some (Value.Str (Analysis.uid a))
    ∧ Value.get "recipe_uid" s = Some (Value.Str (Analysis.uid a))
    ∧ (Analysis.root a = None →
       Value.get "root_id" s = Some (Value.Str "")
       ∧ Value.get "root_uid" s = Some (Value.Str "")).
Proof.
  intros Hproj Hroot Htable.
  rewrite (Analysis_json_data_run E a w proj _ Hproj eq_refl Hroot).
  unfold settings_is_table in Htable.
  destruct (Value.or_empty _) as [| | | | | | |current]; try done.
  eexists _, _, _. split; [reflexivity|]. split; [apply get_set_eq|].
  pose proof (derived_settings_uid E a proj
                (Analysis.root a ≫= λ r, analyses w !! r) current) as (Hu & Hr & Hn).
  split; [done|]. split; [done|].
  intros Hnone. apply Hn. by rewrite Hnone.
Qed.

(** [json_data] raises whenever the "settings" entry of the payload is
    true and is not a table: a number other than zero, a string that is not
    empty, [true], a date, an array that is not empty. *)
Lemma Analysis_json_data_raises (E : Env) (a : Analysis.t) (w : World)
    (proj : Project.t) (table : Value.dict) (v : Value.t) :
  projects w !! Analysis.project a = Some proj →
  loads E (Analysis.json_text a) = inr table →
  Value.get "settings" table = Some v →
  Value.truthy v = true →
  (∀ d, v ≠ Value.Dict d) →
  Analysis_json_data E a w
  = (Raise (TypeError "object does not support item assignment"), w).
Proof.
  intros Hproj Hloads Hget Htruthy Hscalar.
  unfold Analysis_json_data. rewrite bind_unfold, try_loads_run, Hloads.
  unfold fetch. cbv [mbind M_bind get_world mret M_ret raise].
  rewrite Hproj, Hget. unfold Value.or_empty. rewrite Htruthy.
  destruct v; try done. by destruct (Hscalar d).
Qed.

(** C3 at a failing input.  The stored payload is the TOML text
    [settings = 1], which parses to a table whose "settings" entry is the
    integer 1: [json_data] raises a [TypeError] when it assigns the first
    derived key. *)
Theorem json_data_raises_on_scalar_settings :
  loads demo_env "settings = 1" = inr [("settings", Value.Int 1)]
  ∧ (payload_scenario "settings = 1" true demo_world).1
    = Raise (TypeError "object does not support item assignment").
Proof. split; vm_compute; reflexivity. Qed.

(** A payload with a settings table keeps its own keys next to the derived
    ones. *)
Example settings_table_example :
  ∃ s, (payload_scenario ("[settings]" +:+ newline +:+ "cores = 4") false demo_world).1
       = Ok [("settings", Value.Dict s)]
       ∧ Value.get "cores" s = Some (Value.Int 4)
       ∧ Value.get "uid" s = Some (Value.Str "3abcdefg")
       ∧ Value.get "recipe_uid" s = Some (Value.Str "3abcdefg")
       ∧ Value.get "root_id" s = Some (Value.Int 1)
       ∧ Value.get "root_uid" s = Some (Value.Str "2abcdefg").
Proof. eexists. split; [vm_compute; reflexivity|]. repeat split. Qed.

(** ** The table of contents *)

Lemma le_common_prefix (p a b : string) :
  String.le a b → String.le (p +:+ a) (p +:+ b).
Proof.
  unfold String.le, String.leb. intros Hab.
  induction p as [|c p IH]; [done|].
  change ((String c p +:+ a) ?= (String c p +:+ b))%string
    with (match Ascii.compare c c with
          | Eq => (p +:+ a ?= p +:+ b)%string
          | Lt => Lt
          | Gt => Gt
          end).
  unfold Ascii.compare. by rewrite N.compare_refl.
Qed.

Lemma foldl_total_size (fs : gmap string string) (l : list string) (acc : Z) :
  foldl (λ size elem, match fs !! elem with
                      | Some content => size + st_size content
                      | None => size
                      end) acc l
  = acc + total_size fs l.
Proof.
  unfold total_size. revert acc.
  induction l as [|p l IH]; intros acc; simpl; [lia|].
  rewrite IH. destruct (fs !! p); lia.
Qed.

Lemma sorted_walk_spec (fs : gmap string string) (dir : string) :
  Sorted String.le (sorted_walk fs dir)
  ∧ NoDup (sorted_walk fs dir)
  ∧ ∀ p, p ∈ sorted_walk fs dir
         ↔ is_Some (fs !! p) ∧ Py.startswith (dir +:+ "/") p = true.
Proof.
  unfold sorted_walk. split; [|split].
  - apply (Sorted_merge_sort _).
  - rewrite merge_sort_Permutation. apply NoDup_filter, NoDup_elements.
  - intros p. rewrite merge_sort_Permutation, list_elem_of_filter,
      elem_of_elements, elem_of_dom. tauto.
Qed.

(** A sorted collection is determined by its elements. *)
Lemma sorted_listing_unique (l k : list string) :
  Sorted String.le l → NoDup l → Sorted String.le k → NoDup k →
  (∀ p, p ∈ l ↔ p ∈ k) → l = k.
Proof.
  intros Hl Hnl Hk Hnk Hmem.
  apply (Sorted_unique String.le); [done..|].
  by apply NoDup_Permutation.
Qed.

Section Toc.
Context (E : Env).

(** Reading the directory of a data leaves the store as it is. *)
Lemma Data_get_data_dir_reads (self : Data.t) : preserves (λ w, w) (Data_get_data_dir E self).
Proof.
  unfold Data_get_data_dir, Data_get_project_dir, Project_get_project_dir,
    Project_uid_is_set.
  solve_frame.
Qed.

(** [Data.make_toc], step by step, when the directory of the data can be
    named and the manifest can be written. *)
Lemma Data_make_toc_run (gone : gset string) (self : Data.t) (w : World)
    (dir : string) :
  (Data_get_data_dir E self w).1 = Ok dir →
  Data_get_path E self ∉ dirs w →
  dirname (Data_get_path E self) = "/" ∨ dirname (Data_get_path E self) ∈ dirs w →
  let tocname := Data_get_path E self in
  let listing := sorted_walk (files w) dir in
  let fs := filter (λ kv, kv.1 ∉ gone)
                   (<[tocname := Py.join newline listing]> (files w)) in
  Data_make_toc E gone self w
  = (Ok (Data_with_toc self (total_size fs listing) tocname
           (Z.of_nat (List.length listing)), tocname),
     set_files (λ _, fs) w).
Proof.
  intros Hdir Hnodir Hparent tocname listing fs.
  unfold Data_make_toc. rewrite bind_unfold.
  pose proof (Data_get_data_dir_reads self w) as Hw.
  destruct (Data_get_data_dir E self w) as [[d|e] w0]; simpl in Hdir, Hw;
    [|done]. injection Hdir as ->. subst w0.
  unfold findfiles, write_text, vanish.
  cbv [mbind M_bind get_world modify mret M_ret raise].
  rewrite bool_decide_eq_false_2 by done.
  rewrite bool_decide_eq_true_2 by done. simpl.
  fold tocname. fold (sorted_walk (files w) dir). fold listing.
  rewrite foldl_total_size. destruct w; simpl. fold fs.
  by rewrite Z.add_0_l.
Qed.


(** The directory of a data depends on its uid, on its project and on the
    stored projects. *)
Lemma Data_get_data_dir_ext (self self' : Data.t) (w w' : World) :
  Data.uid self' = Data.uid self →
  Data.project self' = Data.project self →
  projects w' = projects w →
  (Data_get_data_dir E self' w').1 = (Data_get_data_dir E self w).1.
Proof.
  intros Huid Hproj Hw.
  unfold Data_get_data_dir, Data_get_project_dir, Project_get_project_dir,
    Project_uid_is_set, fetch, assert.
  rewrite Huid, Hproj.
  cbv [mbind M_bind get_world modify mret M_ret raise].
  destruct (Py.truthy (Data.uid self)); simpl; [|done].
  rewrite Hw.
  destruct (projects w !! Data.project self) as [proj|]; simpl; [|done].
  by destruct (Py.has_ink (Project.uid proj)).
Qed.

(** Writing the manifest again does not change the walk, when the manifest
    was there or lies outside the directory. *)
Lemma sorted_walk_insert (fs : gmap string string) (dir toc content : string) :
  is_Some (fs !! toc) ∨ Py.startswith (dir +:+ "/") toc = false →
  sorted_walk (<[toc := content]> fs) dir = sorted_walk fs dir.
Proof.
  intros Htoc.
  destruct (sorted_walk_spec (<[toc := content]> fs) dir) as (Hs1 & Hn1 & Hm1).
  destruct (sorted_walk_spec fs dir) as (Hs2 & Hn2 & Hm2).
  apply sorted_listing_unique; [done..|].
  intros p. rewrite Hm1, Hm2, lookup_insert_is_Some'.
  split; [|tauto].
  intros [[<-|Hp] Hunder]; [|done].
  destruct Htoc as [?|Hout]; [done|]. by rewrite Hout in Hunder.
Qed.

End Toc.

(** C6.  When the directory of the data can be named and the manifest can
    be written, [make_toc] returns the path of the manifest.  The listing
    it writes holds the regular files under the directory of the data, each
    once, in the order of the strings; it is written to the manifest joined
    by newlines, over what the manifest held; [file_count] is its length;
    [size] adds the sizes of the listed files that exist when the size is
    computed, so that a file that has gone by then counts for nothing and
    raises nothing.  A directory that holds [b.txt] and [a.txt] gives the
    manifest [<dir>/a.txt], newline, [<dir>/b.txt] and the count 2. *)
Theorem make_toc_manifest (E : Env) (gone : gset string) (self : Data.t)
    (w : World) (dir : string) :
  (Data_get_data_dir E self w).1 = Ok dir →
  Data_get_path E self ∉ dirs w →
  dirname (Data_get_path E self) = "/" ∨ dirname (Data_get_path E self) ∈ dirs w →
  ∃ self' w' listing,
    Data_make_toc E gone self w = (Ok (self', Data_get_path E self), w')
    ∧ Sorted String.le listing
    ∧ NoDup listing
    ∧ (∀ p, p ∈ listing
            ↔ is_Some (files w !! p) ∧ Py.startswith (dir +:+ "/") p = true)
    ∧ files w' = filter (λ kv, kv.1 ∉ gone)
                   (<[Data_get_path E self := Py.join newline listing]> (files w))
    ∧ (Data_get_path E self ∉ gone →
       files w' !! Data_get_path E self = Some (Py.join newline listing))
    ∧ (∀ p, p ∈ gone → files w' !! p = None)
    ∧ Data.file self' = Data_get_path E self
    ∧ Data.file_count self' = Z.of_nat (List.length listing)
    ∧ Data.size self' = total_size (files w') listing
    ∧ ((∀ p, is_Some (files w !! p) ∧ Py.startswith (dir +:+ "/") p = true
             ↔ p = dir +:+ "/b.txt" ∨ p = dir +:+ "/a.txt") →
       Py.join newline listing
         = (dir +:+ "/a.txt") +:+ newline +:+ (dir +:+ "/b.txt")
       ∧ Data.file_count self' = 2).
Proof.
  intros Hdir Hnodir Hparent.
  pose proof (Data_make_toc_run E gone self w dir Hdir Hnodir Hparent) as Hrun.
  cbv zeta in Hrun.
  destruct (sorted_walk_spec (files w) dir) as (Hsorted & Hnodup & Hmem).
  eexists _, _, (sorted_walk (files w) dir).
  split; [exact Hrun|]. split; [done|]. split; [done|]. split; [done|].
  assert (files (set_files (λ _, filter (λ kv : string * string, kv.1 ∉ gone)
            (<[Data_get_path E self := Py.join newline (sorted_walk (files w) dir)]>
               (files w))) w)
          = filter (λ kv : string * string, kv.1 ∉ gone)
            (<[Data_get_path E self := Py.join newline (sorted_walk (files w) dir)]>
               (files w))) as Hfiles by (by destruct w).
  rewrite Hfiles.
  split; [done|]. split; [|split; [|split; [done|split; [done|split; [done|]]]]].
  - intros Hkept. apply map_lookup_filter_Some. by rewrite lookup_insert_eq.
  - intros p Hp. apply map_lookup_filter_None. right. intros x _ Hin. by apply Hin.
  - intros Hfs.
    assert (sorted_walk (files w) dir = [dir +:+ "/a.txt"; dir +:+ "/b.txt"]) as ->.
    { apply sorted_listing_unique; [done|done| | |].
      - repeat constructor. by apply le_common_prefix.
      - apply NoDup_cons. split; [|apply NoDup_singleton].
        intros Hin%list_elem_of_singleton. by apply (inj (String.app dir)) in Hin.
      - intros p. rewrite Hmem, Hfs, !elem_of_cons, elem_of_nil. tauto. }
    done.
Qed.

(** In the example the data directory holds [b.txt], of two bytes, and
    [a.txt], of one; [b.txt] disappears after the walk. *)
Lemma make_toc_manifest_witness :
  let dir := "/export/media/projects/1abcdefg/2abcdefg" in
  let gone : gset string := {[ dir +:+ "/b.txt" ]} in
  (Data_get_data_dir demo_env toc_data toc_world).1 = Ok dir
  ∧ (Data_get_path demo_env toc_data ∉ dirs toc_world)
  ∧ (dirname (Data_get_path demo_env toc_data) = "/"
     ∨ dirname (Data_get_path demo_env toc_data) ∈ dirs toc_world)
  ∧ ∃ self' w' listing,
      Data_make_toc demo_env gone toc_data toc_world
        = (Ok (self', Data_get_path demo_env toc_data), w')
      ∧ Sorted String.le listing
      ∧ NoDup listing
      ∧ (∀ p, p ∈ listing
              ↔ is_Some (files toc_world !! p)
                ∧ Py.startswith (dir +:+ "/") p = true)
      ∧ files w' = filter (λ kv, kv.1 ∉ gone)
                     (<[Data_get_path demo_env toc_data := Py.join newline listing]>
                        (files toc_world))
      ∧ (Data_get_path demo_env toc_data ∉ gone →
         files w' !! Data_get_path demo_env toc_data = Some (Py.join newline listing))
      ∧ (∀ p, p ∈ gone → files w' !! p = None)
      ∧ Data.file self' = Data_get_path demo_env toc_data
      ∧ Data.file_count self' = Z.of_nat (List.length listing)
      ∧ Data.size self' = total_size (files w') listing
      ∧ ((∀ p, is_Some (files toc_world !! p)
               ∧ Py.startswith (dir +:+ "/") p = true
               ↔ p = dir +:+ "/b.txt" ∨ p = dir +:+ "/a.txt") →
         Py.join newline listing
           = (dir +:+ "/a.txt") +:+ newline +:+ (dir +:+ "/b.txt")
         ∧ Data.file_count self' = 2).
Proof.
  intros dir gone.
  assert ((Data_get_data_dir demo_env toc_data toc_world).1 = Ok dir) as H1
    by (vm_compute; reflexivity).
  assert (Data_get_path demo_env toc_data ∉ dirs toc_world) as H2
    by (apply (bool_decide_unpack _); vm_compute; exact I).
  assert (dirname (Data_get_path demo_env toc_data) = "/"
          ∨ dirname (Data_get_path demo_env toc_data) ∈ dirs toc_world) as H3
    by (right; apply (bool_decide_unpack _); vm_compute; exact I).
  split; [exact H1|]. split; [exact H2|]. split; [exact H3|].
  exact (make_toc_manifest demo_env gone toc_data toc_world dir H1 H2 H3).
Defined.

(** What the example computes: the manifest lists both files, the count is
    2 and the size is that of [a.txt] alone. *)
Example make_toc_example :
  let dir := "/export/media/projects/1abcdefg/2abcdefg" in
  ∃ D w',
    toc_scenario {[ dir +:+ "/b.txt" ]} false demo_world
      = (Ok (D, "/export/tocs/toc-2abcdefg.txt"), w')
    ∧ files w' !! "/export/tocs/toc-2abcdefg.txt"
      = Some ((dir +:+ "/a.txt") +:+ newline +:+ (dir +:+ "/b.txt"))
    ∧ Data.file_count D = 2
    ∧ Data.size D = 1.
Proof.
  intros dir. eexists _, _. split; [vm_compute; reflexivity|].
  repeat split; vm_compute; reflexivity.
Qed.

(** C7.  When the manifest of the data exists, as it does once the data
    was saved, or lies outside the directory of the data, and nothing else
    changes the files, a second call of [make_toc] returns what the first
    returned and leaves the store as the first left it: the manifest, the
    size and the file count are the same. *)
Theorem make_toc_idempotent (E : Env) (self : Data.t) (w : World) (dir : string) :
  (Data_get_data_dir E self w).1 = Ok dir →
  Data_get_path E self ∉ dirs w →
  dirname (Data_get_path E self) = "/" ∨ dirname (Data_get_path E self) ∈ dirs w →
  is_Some (files w !! Data_get_path E self)
  ∨ Py.startswith (dir +:+ "/") (Data_get_path E self) = false →
  ∃ self1 w1 self2 w2,
    Data_make_toc E ∅ self w = (Ok (self1, Data_get_path E self), w1)
    ∧ Data_make_toc E ∅ self1 w1 = (Ok (self2, Data_get_path E self), w2)
    ∧ is_Some (files w1 !! Data_get_path E self)
    ∧ files w2 !! Data_get_path E self = files w1 !! Data_get_path E self
    ∧ Data.size self2 = Data.size self1
    ∧ Data.file_count self2 = Data.file_count self1
    ∧ self2 = self1
    ∧ w2 = w1.
Proof.
  intros Hdir Hnodir Hparent Htoc.
  pose proof (Data_make_toc_run E ∅ self w dir Hdir Hnodir Hparent) as Hrun1.
  cbv zeta in Hrun1. rewrite map_filter_id in Hrun1 by (intros; set_solver).
  set (tocname := Data_get_path E self) in *.
  set (listing := sorted_walk (files w) dir) in *.
  set (fs1 := <[tocname := Py.join newline listing]> (files w)) in *.
  set (self1 := Data_with_toc self (total_size fs1 listing) tocname
                  (Z.of_nat (List.length listing))) in *.
  set (w1 := set_files (λ _, fs1) w) in *.
  assert (files w1 = fs1) as Hfiles1 by (by destruct w).
  assert (dirs w1 = dirs w) as Hdirs1 by (by destruct w).
  assert (projects w1 = projects w) as Hprojects1 by (by destruct w).
  assert (Data_get_path E self1 = tocname) as Hpath1 by done.
  assert ((Data_get_data_dir E self1 w1).1 = Ok dir) as Hdir1.
  { by rewrite (Data_get_data_dir_ext E self self1 w w1). }
  pose proof (Data_make_toc_run E ∅ self1 w1 dir Hdir1) as Hrun2.
  rewrite Hpath1, Hdirs1 in Hrun2. specialize (Hrun2 Hnodir Hparent).
  cbv zeta in Hrun2. rewrite map_filter_id in Hrun2 by (intros; set_solver).
  rewrite Hfiles1 in Hrun2. unfold fs1 in Hrun2.
  rewrite !(sorted_walk_insert (files w) dir tocname _ Htoc) in Hrun2.
  fold listing in Hrun2. rewrite insert_insert_eq in Hrun2. fold fs1 in Hrun2.
  assert (set_files (λ _, fs1) w1 = w1) as Hsame by (by destruct w).
  rewrite Hsame in Hrun2.
  exists self1, w1, self1, w1.
  split; [done|]. split; [done|]. split; [|done].
  rewrite Hfiles1. unfold fs1. rewrite lookup_insert_eq. by eexists.
Qed.

Lemma make_toc_idempotent_witness :
  let dir := "/export/media/projects/1abcdefg/2abcdefg" in
  (Data_get_data_dir demo_env toc_data toc_world).1 = Ok dir
  ∧ (Data_get_path demo_env toc_data ∉ dirs toc_world)
  ∧ (dirname (Data_get_path demo_env toc_data) = "/"
     ∨ dirname (Data_get_path demo_env toc_data) ∈ dirs toc_world)
  ∧ (is_Some (files toc_world !! Data_get_path demo_env toc_data)
     ∨ Py.startswith (dir +:+ "/") (Data_get_path demo_env toc_data) = false)
  ∧ ∃ self1 w1 self2 w2,
      Data_make_toc demo_env ∅ toc_data toc_world
        = (Ok (self1, Data_get_path demo_env toc_data), w1)
      ∧ Data_make_toc demo_env ∅ self1 w1
        = (Ok (self2, Data_get_path demo_env toc_data), w2)
      ∧ is_Some (files w1 !! Data_get_path demo_env toc_data)
      ∧ files w2 !! Data_get_path demo_env toc_data
        = files w1 !! Data_get_path demo_env toc_data
      ∧ Data.size self2 = Data.size self1
      ∧ Data.file_count self2 = Data.file_count self1
      ∧ self2 = self1
      ∧ w2 = w1.
Proof.
  intros dir.
  assert ((Data_get_data_dir demo_env toc_data toc_world).1 = Ok dir) as H1
    by (vm_compute; reflexivity).
  assert (Data_get_path demo_env toc_data ∉ dirs toc_world) as H2
    by (apply (bool_decide_unpack _); vm_compute; exact I).
  assert (dirname (Data_get_path demo_env toc_data) = "/"
          ∨ dirname (Data_get_path demo_env toc_data) ∈ dirs toc_world) as H3
    by (right; apply (bool_decide_unpack _); vm_compute; exact I).
  assert (is_Some (files toc_world !! Data_get_path demo_env toc_data)
          ∨ Py.startswith (dir +:+ "/") (Data_get_path demo_env toc_data) = false)
    as H4 by (right; vm_compute; reflexivity).
  split; [exact H1|]. split; [exact H2|]. split; [exact H3|]. split; [exact H4|].
  exact (make_toc_idempotent demo_env toc_data toc_world dir H1 H2 H3 H4).
Defined.

(** Twice in the example: the second call returns the size 3 and the count
    2, as the first does. *)
Example make_toc_twice_example :
  (toc_scenario ∅ true demo_world).1 = (toc_scenario ∅ false demo_world).1
  ∧ files (toc_scenario ∅ true demo_world).2 = files (toc_scenario ∅ false demo_world).2
  ∧ ∃ D, (toc_scenario ∅ true demo_world).1 = Ok (D, "/export/tocs/toc-2abcdefg.txt")
         ∧ Data.size D = 3 ∧ Data.file_count D = 2.
Proof.
  split; [vm_compute; reflexivity|]. split; [vm_compute; reflexivity|].
  eexists. split; [vm_compute; reflexivity|]. by split.
Qed.
